(** * study-map: the follow screen and the map screen

    A shallow embedding of the two pieces of client logic that carry
    behaviour of their own:

    - [FollowScreen]: [handleFollowToggle], the optimistic follow/unfollow
      update with its rollback (the follow screen component);
    - [HomeScreen]: [bringSpaceToTop], [getGlowStyle] and the study-space
      markers of the map (app/(tabs)/index.tsx);
    - [FollowScreenView]: [fetchData] and the rows the follow screen draws;
    - [HomeScreenActions]: [getCurrentLocation], the presses on markers and
      the session popup of the map screen.

    JavaScript arrays are lists, [Array.prototype.filter] is [filter], the
    spread [[...prev, x]] is [prev ++ [x]]. *)

From Stdlib Require Import ZArith QArith Qminmax Lia Lqa.
From stdpp Require Import base list strings.

(** ** The follow screen *)

Module FollowScreen.

(** What awaiting the backend call does: the promise resolves, or it is
    rejected and the [await] throws into the [catch] block. *)
Inductive BackendOutcome : Set := Resolved | Rejected.

(** One call [toggleFollowUser(uid, targetUserId, follow)]. *)
Record BackendCall : Set := mkCall {
  call_uid : string;
  call_target : string;
  call_follow : bool
}.

(** What one press leaves behind: the list set by the optimistic update,
    the list after the handler has finished, the backend calls made, and
    whether the [catch] block ran. *)
Record Press : Set := mkPress {
  optimistic : list string;
  final : list string;
  calls : list BackendCall;
  caught : bool
}.

(** [following.includes(targetUserId)] *)
Definition includes (l : list string) (x : string) : bool :=
  bool_decide (x ∈ l).

(** The updater of the optimistic [setFollowing]:
    [prev => isCurrentlyFollowing ? prev.filter(id => id !== t) : [...prev, t]] *)
Definition optimisticUpdate (isCurrentlyFollowing : bool)
    (targetUserId : string) (prev : list string) : list string :=
  if isCurrentlyFollowing
  then filter (λ id, id ≠ targetUserId) prev
  else prev ++ [targetUserId].

(** The updater of the [setFollowing] of the [catch] block; [following]
    is the list captured by the handler, [prev] the state it updates:
    [prev => !following.includes(t) ? prev.filter(id => id !== t) : [...prev, t]] *)
Definition revertUpdate (following : list string)
    (targetUserId : string) (prev : list string) : list string :=
  if negb (includes following targetUserId)
  then filter (λ id, id ≠ targetUserId) prev
  else prev ++ [targetUserId].

Section Handler.

(** The backend function is not part of the screen: it is a parameter
    that says, for each call, whether the promise resolves. *)
Variable toggleFollowUser : string → string → bool → BackendOutcome.

(** Awaiting a call: the backend is applied to the arguments of the
    call, so the calls a press records are the calls it makes. *)
Definition perform (call : BackendCall) : BackendOutcome :=
  toggleFollowUser (call_uid call) (call_target call) (call_follow call).

(** [handleFollowToggle(targetUserId)], run by the handler of a render
    whose captured list is [following], on the state [prev]. [user] is
    the signed-in user's uid; with no user, evaluating [user.uid]
    throws inside the [try], after the optimistic update and before
    any backend call. The call is
    [toggleFollowUser(user.uid, targetUserId, !isCurrentlyFollowing)]. *)
Definition handleFollowToggle (user : option string)
    (following prev : list string) (targetUserId : string) : Press :=
  let isCurrentlyFollowing := includes following targetUserId in
  let updated := optimisticUpdate isCurrentlyFollowing targetUserId prev in
  match user with
  | None =>
      mkPress updated (revertUpdate following targetUserId updated) [] true
  | Some uid =>
      let call := mkCall uid targetUserId (negb isCurrentlyFollowing) in
      match perform call with
      | Resolved => mkPress updated updated [call] false
      | Rejected =>
          mkPress updated (revertUpdate following targetUserId updated)
            [call] true
      end
  end.

(** A press on the current render: the captured list is the state. *)
Definition press (user : option string) (following : list string)
    (targetUserId : string) : Press :=
  handleFollowToggle user following following targetUserId.

End Handler.

(** Backends used in examples. *)
Definition alwaysRejects (_ _ : string) (_ : bool) : BackendOutcome := Rejected.
Definition alwaysResolves (_ _ : string) (_ : bool) : BackendOutcome := Resolved.

End FollowScreen.

(** ** The map screen *)

Module HomeScreen.

(** *** JavaScript values

    A JS number is a double: not-a-number, an infinity, or a finite
    value. [Math.min], [Math.max] and the comparisons only order
    numbers, without rounding, so finite doubles are modelled by
    rationals in their order: a decimal literal of the source (0.15,
    0.5, 0.55, 0.7) stands for the double it denotes and is written as
    the rational of the same text. The two zeros are one. *)
Inductive JsNumber : Set :=
| NaN
| NegInfinity
| Finite (q : Q)
| PosInfinity.

(** The values a marker field or an argument can hold. [JsObject] is any
    object (the screen passes an [Animated.Value] as glow opacity). *)
Inductive JsValue : Set :=
| JsUndefined
| JsNull
| JsBoolean (b : bool)
| JsNum (n : JsNumber)
| JsString (s : string)
| JsObject.

(** [isNaN(n)] on a number. *)
Definition isNaN (n : JsNumber) : bool :=
  match n with NaN => true | _ => false end.

(** [a <= b] on numbers; false when either is NaN. *)
Definition js_le (a b : JsNumber) : bool :=
  match a, b with
  | NaN, _ | _, NaN => false
  | NegInfinity, _ => true
  | _, PosInfinity => true
  | Finite x, Finite y => Qle_bool x y
  | _, _ => false
  end.

Definition Math_min (a b : JsNumber) : JsNumber :=
  match a, b with
  | NaN, _ | _, NaN => NaN
  | _, _ => if js_le a b then a else b
  end.

Definition Math_max (a b : JsNumber) : JsNumber :=
  match a, b with
  | NaN, _ | _, NaN => NaN
  | _, _ => if js_le a b then b else a
  end.

(** Truthiness, as [!v] and [v && ...] test it. *)
Definition truthy (v : JsValue) : bool :=
  match v with
  | JsUndefined | JsNull => false
  | JsBoolean b => b
  | JsNum NaN => false
  | JsNum (Finite q) => negb (Qeq_bool q 0)
  | JsNum _ => true
  | JsString s => negb (bool_decide (s = ""))
  | JsObject => true
  end.

(** [v === 'text'] *)
Definition is_string (v : JsValue) (text : string) : bool :=
  match v with
  | JsString s => bool_decide (s = text)
  | _ => false
  end.

(** [v === null] *)
Definition is_null (v : JsValue) : bool :=
  match v with JsNull => true | _ => false end.

(** *** Data of the screen *)

(** [LocationData]. Timestamps are epoch milliseconds, as [Date.now()]
    gives them: integers far below 2^53, on which the subtraction and
    the comparison of [getGlowStyle] are exact. *)
Record LocationData : Set := mkLocation {
  latitude : JsNumber;
  longitude : JsNumber;
  timestamp : Z
}.

(** The user of the auth context. *)
Record AuthUser : Set := mkAuthUser {
  uid : string;
  user_name : option string;
  user_pfp : option string
}.

(** An entry of [userLocations], as [getGlowStyle] receives it. The
    current user's own marker passes [{ userId: user.uid }], where
    every other field is undefined. *)
Record UserLocation : Set := mkUserLocation {
  userId : string;
  name : option string;
  location : option LocationData;
  pfp : option string;
  sessionActive : JsValue;
  sessionType : JsValue
}.

Record FeatureRatings : Set := mkFeatures {
  aesthetics : JsNumber * JsNumber * JsNumber * JsNumber;
  lighting : JsNumber * JsNumber * JsNumber * JsNumber;
  reservable : JsNumber * JsNumber;
  seating : JsNumber * JsNumber * JsNumber * JsNumber;
  noise : JsNumber;
  outlets : JsNumber;
  temp : JsNumber;
  wifi : JsNumber;
  cleanliness : JsNumber
}.

(** [StudySpace]; [space_location] is the pair [[latitude, longitude]]. *)
Record StudySpace : Set := mkStudySpace {
  id : string;
  space_name : string;
  address : string;
  createdBy : string;
  features : FeatureRatings;
  hours : string;
  space_location : JsNumber * JsNumber;
  numRatings : JsNumber;
  spaceId : string;
  images : option (list string)
}.

(** *** bringSpaceToTop *)

(** [Array.prototype.findIndex]: the index of the first element that
    satisfies [p], or -1. *)
Fixpoint findIndex {A : Type} (p : A → bool) (l : list A) : Z :=
  match l with
  | [] => -1
  | x :: rest =>
      if p x then 0
      else let i := findIndex p rest in
           if (i =? -1)%Z then (-1)%Z else (i + 1)%Z
  end.

(** [l.filter((x, i) => p(x, i))], the index counted from [from]. *)
Fixpoint filterFrom {A : Type} (from : Z) (p : A → Z → bool) (l : list A)
    : list A :=
  match l with
  | [] => []
  | x :: rest =>
      if p x from then x :: filterFrom (from + 1) p rest
      else filterFrom (from + 1) p rest
  end.

Definition filterIndexed {A : Type} (p : A → Z → bool) (l : list A) : list A :=
  filterFrom 0 p l.

(** The updater [bringSpaceToTop(spaceId)] hands to [setStudySpaces].
    [prevSpaces[index]] is a lookup; the index found is always in range
    (see [findIndex_lookup]), so the [None] branch is never taken. *)
Definition bringSpaceToTop (spaceId : string) (prevSpaces : list StudySpace)
    : list StudySpace :=
  let index := findIndex (λ space, bool_decide (id space = spaceId)) prevSpaces in
  if (index =? -1)%Z then prevSpaces
  else
    let rest := filterIndexed (λ _ i, negb (i =? index)%Z) prevSpaces in
    match prevSpaces !! Z.to_nat index with
    | Some selected => selected :: rest
    | None => rest
    end.

(** *** Glow styles *)

(** The colour [rgba(r, g, b, a)]. The source writes colours as strings,
    built from the opacity by a template literal; a number's decimal
    text determines the number, so the components carry the same
    information. *)
Record Rgba : Set := rgba {
  red : Z;
  green : Z;
  blue : Z;
  alpha : JsNumber
}.

(** An entry of the style sheet. *)
Record GlowSheet : Set := mkSheet {
  shadowColor : Rgba;
  shadowOffset : Z * Z;
  shadowOpacity : JsNumber;
  shadowRadius : Z;
  borderColor : Rgba;
  borderWidth : Z
}.

Inductive GlowName : Set :=
| glowSelf
| glowInactive
| glowNoSession
| glowIndividual
| glowQuiet
| glowCollaborative.

(** [styles.glowSelf] ... [styles.glowCollaborative] *)
Definition styles (n : GlowName) : GlowSheet :=
  match n with
  | glowSelf =>
      mkSheet (rgba 100 180 255 (Finite (7 # 10))) (0, 0)%Z (Finite (7 # 10)) 18
              (rgba 100 180 255 (Finite (7 # 10))) 6
  | glowInactive =>
      mkSheet (rgba 176 176 176 (Finite (5 # 10))) (0, 0)%Z (Finite (5 # 10)) 16
              (rgba 176 176 176 (Finite (5 # 10))) 6
  | glowNoSession =>
      mkSheet (rgba 220 139 71 (Finite (5 # 10))) (0, 0)%Z (Finite (5 # 10)) 16
              (rgba 220 139 71 (Finite (5 # 10))) 6
  | glowIndividual =>
      mkSheet (rgba 255 75 75 (Finite (55 # 100))) (0, 0)%Z (Finite (55 # 100)) 18
              (rgba 255 75 75 (Finite (55 # 100))) 6
  | glowQuiet =>
      mkSheet (rgba 255 224 102 (Finite (55 # 100))) (0, 0)%Z (Finite (55 # 100)) 18
              (rgba 255 224 102 (Finite (55 # 100))) 6
  | glowCollaborative =>
      mkSheet (rgba 75 228 123 (Finite (55 # 100))) (0, 0)%Z (Finite (55 # 100)) 18
              (rgba 75 228 123 (Finite (55 # 100))) 6
  end.

(** The object literal
    [{ shadowOpacity: op, borderColor: `rgba(..,${op})`, shadowColor: `rgba(..,${op})` }] *)
Record GlowOverride : Set := mkOverride {
  over_shadowOpacity : JsNumber;
  over_borderColor : Rgba;
  over_shadowColor : Rgba
}.

(** What [getGlowStyle] returns: the two-element array of a sheet entry
    and the override that follows it. *)
Definition GlowStyle : Set := GlowSheet * GlowOverride.

(** [[styles.n, { shadowOpacity: op, borderColor: rgba(r,g,b,op),
    shadowColor: rgba(r,g,b,op) }]] *)
Definition glow (n : GlowName) (r g b : Z) (op : JsNumber) : GlowStyle :=
  (styles n, mkOverride op (rgba r g b op) (rgba r g b op)).

(** The constant [op] of [getGlowStyle]:
    [typeof glowOpacity === 'number' && !isNaN(glowOpacity)
       ? Math.max(0.15, Math.min(0.7, glowOpacity)) : 0.5] *)
Definition glowOp (glowOpacity : JsValue) : JsNumber :=
  match glowOpacity with
  | JsNum n =>
      if negb (isNaN n)
      then Math_max (Finite (15 # 100)) (Math_min (Finite (7 # 10)) n)
      else Finite (5 # 10)
  | _ => Finite (5 # 10)
  end.

(** [currentUser?.uid] *)
Definition optUid (currentUser : option AuthUser) : option string :=
  uid <$> currentUser.

(** [getGlowStyle(userLocation, currentUser, selectedUserId, glowOpacity)];
    [now] is what [Date.now()] returns during the call. *)
Definition getGlowStyle (now : Z) (userLocation : UserLocation)
    (currentUser : option AuthUser) (selectedUserId : option string)
    (glowOpacity : JsValue) : GlowStyle :=
  let op := glowOp glowOpacity in
  if bool_decide (Some (userId userLocation) = optUid currentUser)
  then glow glowSelf 100 180 255 op
  else if negb (truthy (sessionActive userLocation))
          && (negb (truthy (sessionType userLocation))
              || is_null (sessionType userLocation))
  then
    let isInactive :=
      match location userLocation with
      | None => true
      | Some loc => (30 * 60 * 1000 <? now - timestamp loc)%Z
      end in
    if isInactive then glow glowInactive 176 176 176 op
    else glow glowNoSession 220 139 71 op
  else if truthy (sessionActive userLocation)
  then
    if is_string (sessionType userLocation) "collaborative"
    then glow glowCollaborative 75 228 123 op
    else if is_string (sessionType userLocation) "quiet"
    then glow glowQuiet 255 224 102 op
    else if is_string (sessionType userLocation) "individual"
    then glow glowIndividual 255 75 75 op
    else glow glowCollaborative 75 228 123 op
  else glow glowNoSession 220 139 71 op.

(** *** The markers of the map *)

Record Region : Set := mkRegion {
  region_latitude : JsNumber;
  region_longitude : JsNumber;
  latitudeDelta : JsNumber;
  longitudeDelta : JsNumber
}.

(** The [coordinate] prop: [{ latitude, longitude }]. *)
Record Coordinate : Set := mkCoordinate {
  coord_latitude : JsNumber;
  coord_longitude : JsNumber
}.

(** What pressing a marker does. *)
Inductive MarkerPress : Set :=
| NoPress
| SelectUser (userId : string)
| BringSpaceToTop (spaceId : string).

(** What a marker draws: a profile badge in its glow, a bundled
    picture, or the pin with its callout. A badge shows the picture
    [pfp] when there is one to show and the initials of the name
    otherwise; the text of the initials is left out. *)
Inductive MarkerChild : Set :=
| ProfileBadge (glowStyle : GlowStyle) (selected : bool) (pfp : option string)
| PfpIcon (asset : string)
| Pin (width height : Z) (calloutTitle calloutText : string).

(** A [<Marker>] element with the props the screen sets. *)
Record Marker : Set := mkMarker {
  key : option string;
  coordinate : Coordinate;
  title : option string;
  description : option string;
  onPress : MarkerPress;
  child : MarkerChild
}.

(** The state and context values the map is drawn from. [glowAnim[0]],
    the opacity argument of every [getGlowStyle] call of the screen, is
    an [Animated.Value] object. *)
Record ScreenState : Set := mkScreen {
  region : option Region;
  currentLocation : option LocationData;
  user : option AuthUser;
  userLocations : list UserLocation;
  studySpaces : list StudySpace;
  selectedUserId : option string;
  zoomLevel : Z
}.

Definition glowAnim0 : JsValue := JsObject.

(** The picture a badge shows: [pfp ? <Image source={{ uri: pfp }} /> :
    <View> initials </View>] tests [pfp] for truthiness, so a missing
    and an empty [pfp] both show the initials. *)
Definition shownPicture (pfp : option string) : option string :=
  match pfp with
  | Some uri => if bool_decide (uri = "") then None else Some uri
  | None => None
  end.

(** What evaluating a piece of the render gives: its value, or a throw
    that ends the render of the whole screen. *)
Inductive Rendered (A : Type) : Type :=
| Drawn (a : A)
| RenderThrows.
Arguments Drawn {A} a.
Arguments RenderThrows {A}.

(** [currentLocation && user && <Marker ...>]; without a picture the
    badge shows [user.name ? initials : 'ME'], which never throws. *)
Definition currentLocationMarker (now : Z) (st : ScreenState) : list Marker :=
  match currentLocation st, user st with
  | Some loc, Some u =>
      [ mkMarker None (mkCoordinate (latitude loc) (longitude loc)) None None
          NoPress
          (ProfileBadge
             (getGlowStyle now
                (mkUserLocation (uid u) None None None JsUndefined JsUndefined)
                (Some u) (selectedUserId st) glowAnim0)
             (bool_decide (selectedUserId st = Some (uid u)))
             (shownPicture (user_pfp u))) ]
  | _, _ => []
  end.

Definition pfpMarker (lat lng : Q) (asset : string) : Marker :=
  mkMarker None (mkCoordinate (Finite lat) (Finite lng)) None None NoPress
    (PfpIcon asset).

(** The seven markers written out in the screen. *)
Definition teamMarkers : list Marker :=
  [ pfpMarker (30288075 # 1000000) (- (97735714 # 1000000)) "pfp_vaishnuv.png";
    pfpMarker (3028668 # 100000) (- (9773782 # 100000)) "pfp_shruti.png";
    pfpMarker (30285876 # 1000000) (- (97739407 # 1000000)) "pfp_rishindra.png";
    pfpMarker (30288491 # 1000000) (- (97743310 # 1000000)) "pfp_vincent.png";
    pfpMarker (30289997 # 1000000) (- (97740532 # 1000000)) "pfp_drishti.png";
    pfpMarker (3028417 # 100000) (- (9773783 # 100000)) "pfp_venkat.png";
    pfpMarker (3028876 # 100000) (- (9773758 # 100000)) "pfp_ishita.png" ].

(** The body of [userLocations.map(...)]: [null] for an entry without a
    location; otherwise the marker, whose badge shows the picture or,
    without one, the initials [userLocation.name.split(' ')...]: for an
    entry that has no name this reads [split] of undefined and throws. *)
Definition followedUserElement (now : Z) (st : ScreenState)
    (userLocation : UserLocation) : Rendered (option Marker) :=
  match location userLocation with
  | None => Drawn None
  | Some loc =>
      match shownPicture (pfp userLocation), name userLocation with
      | None, None => RenderThrows
      | picture, _ =>
          Drawn
            (Some (mkMarker (Some (userId userLocation))
                     (mkCoordinate (latitude loc) (longitude loc)) None None
                     (SelectUser (userId userLocation))
                     (ProfileBadge
                        (getGlowStyle now userLocation (user st)
                           (selectedUserId st) glowAnim0)
                        (bool_decide
                           (selectedUserId st = Some (userId userLocation)))
                        picture)))
      end
  end.

(** The marker that the body draws for an entry, if it draws one. *)
Definition followedUserMarker (now : Z) (st : ScreenState)
    (userLocation : UserLocation) : option Marker :=
  match followedUserElement now st userLocation with
  | Drawn element => element
  | RenderThrows => None
  end.

(** [l.map(body)] as children: the elements in order, [null]s drawing
    nothing; the first throw ends the render. *)
Fixpoint renderEach {A B : Type} (body : A → Rendered (option B))
    (l : list A) : Rendered (list B) :=
  match l with
  | [] => Drawn []
  | x :: rest =>
      match body x with
      | RenderThrows => RenderThrows
      | Drawn element =>
          match renderEach body rest with
          | RenderThrows => RenderThrows
          | Drawn elements =>
              Drawn (match element with
                     | Some drawn => drawn :: elements
                     | None => elements
                     end)
          end
      end
  end.

(** The body of [studySpaces.map(...)]. *)
Definition studySpaceMarker (zoom : Z) (space : StudySpace) : Marker :=
  mkMarker (Some (spaceId space))
    (mkCoordinate (fst (space_location space)) (snd (space_location space)))
    (Some (space_name space))
    (Some (address space))
    (BringSpaceToTop (spaceId space))
    (Pin (zoom * 2) (zoom * 2) (space_name space) (address space)).

(** [region && <MapView> ... </MapView>]: the markers of the map, in
    the order of the source; nothing when there is no region yet, in
    which case the children are not evaluated; a throw when a followed
    user's marker throws. *)
Definition renderMap (now : Z) (st : ScreenState)
    : Rendered (option (list Marker)) :=
  match region st with
  | None => Drawn None
  | Some _ =>
      match renderEach (followedUserElement now st) (userLocations st) with
      | RenderThrows => RenderThrows
      | Drawn followed =>
          Drawn
            (Some (currentLocationMarker now st
                   ++ teamMarkers
                   ++ followed
                   ++ (studySpaceMarker (zoomLevel st) <$> studySpaces st)))
      end
  end.

(** The map that is drawn, if one is. *)
Definition mapView (now : Z) (st : ScreenState) : option (list Marker) :=
  match renderMap now st with
  | Drawn map => map
  | RenderThrows => None
  end.

(** The markers on the screen. *)
Definition renderedMarkers (now : Z) (st : ScreenState) : list Marker :=
  default [] (mapView now st).

(** The small cards of the bottom sheet, one per study space, with or
    without a region: [studySpaces.map(space => <SmallCard
    key={space.id} space={{ ...space, images: space.images || [] }} />)] *)
Definition smallCards (st : ScreenState) : list (string * StudySpace) :=
  (λ space,
     (id space,
      mkStudySpace (id space) (space_name space) (address space)
        (createdBy space) (features space) (hours space)
        (space_location space) (numRatings space) (spaceId space)
        (Some (default [] (images space)))))
  <$> studySpaces st.

(** *** Names used in the statements *)

(** The six glows, by the colour the style sheet's comments give them. *)
Definition blueGlow (op : JsNumber) : GlowStyle := glow glowSelf 100 180 255 op.
Definition grayGlow (op : JsNumber) : GlowStyle := glow glowInactive 176 176 176 op.
Definition orangeGlow (op : JsNumber) : GlowStyle := glow glowNoSession 220 139 71 op.
Definition greenGlow (op : JsNumber) : GlowStyle := glow glowCollaborative 75 228 123 op.
Definition yellowGlow (op : JsNumber) : GlowStyle := glow glowQuiet 255 224 102 op.
Definition redGlow (op : JsNumber) : GlowStyle := glow glowIndividual 255 75 75 op.

(** A number in the closed interval [0.15, 0.7]. *)
Definition inGlowRange (n : JsNumber) : Prop :=
  match n with
  | Finite q => (15 # 100 <= q)%Q ∧ (q <= 7 # 10)%Q
  | _ => False
  end.

(** The marker input is the current user's: [userId === currentUser?.uid]. *)
Definition isSelf (userLocation : UserLocation) (currentUser : option AuthUser)
    : Prop :=
  Some (userId userLocation) = optUid currentUser.

(** No entry makes the followed users' markers throw: every entry with
    a location has a picture to show or a name. *)
Definition namesDrawable (entries : list UserLocation) : Prop :=
  ∀ entry, entry ∈ entries →
    is_Some (location entry) →
    shownPicture (pfp entry) = None → is_Some (name entry).

(** The last location ping is missing, or more than 30 minutes old. *)
Definition stale (now : Z) (userLocation : UserLocation) : Prop :=
  match location userLocation with
  | None => True
  | Some loc => (timestamp loc < now - 30 * 60 * 1000)%Z
  end.

(** The test of [bringSpaceToTop]'s [findIndex]: [space.id === spaceId]. *)
Definition hasId (spaceId : string) (space : StudySpace) : bool :=
  bool_decide (id space = spaceId).

(** *** Sample data *)

Definition noRatings : FeatureRatings :=
  mkFeatures (Finite 0, Finite 0, Finite 0, Finite 0)
    (Finite 0, Finite 0, Finite 0, Finite 0) (Finite 0, Finite 0)
    (Finite 0, Finite 0, Finite 0, Finite 0)
    (Finite 0) (Finite 0) (Finite 0) (Finite 0) (Finite 0).

Definition sampleSpace (spaceKey spaceName : string) : StudySpace :=
  mkStudySpace spaceKey spaceName "2200 Speedway" "ann" noRatings "8am-10pm"
    (Finite (30286 # 1000), Finite (- (97737 # 1000))) (Finite 0) spaceKey None.

Definition sampleUser : AuthUser := mkAuthUser "me" (Some "Me") None.

(** A followed user at a given time of last ping. *)
Definition sampleFriend (active type : JsValue) (pingedAt : Z) : UserLocation :=
  mkUserLocation "ann" (Some "Ann Lee")
    (Some (mkLocation (Finite (30286 # 1000)) (Finite (- (97737 # 1000))) pingedAt))
    None active type.

(** The screen before a region is known, with one study space loaded. *)
Definition noRegionYet : ScreenState :=
  mkScreen None None (Some sampleUser) [] [sampleSpace "pcl" "PCL"] None 15.

Definition withRegion : ScreenState :=
  mkScreen
    (Some (mkRegion (Finite (30286 # 1000)) (Finite (- (97737 # 1000)))
             (Finite (922 # 10000)) (Finite (421 # 10000))))
    None (Some sampleUser) [] [sampleSpace "pcl" "PCL"] None 15.

End HomeScreen.

(** ** The rest of the follow screen: loading the lists and drawing them *)

Module FollowScreenView.
Import FollowScreen.

(** What an [await] gives: the value of a fulfilled promise, or a throw
    into the enclosing [catch]. *)
Inductive Awaited (A : Type) : Type :=
| Fulfilled (a : A)
| Thrown.
Arguments Fulfilled {A} a.
Arguments Thrown {A}.

(** An element of [users], with the fields the list reads. *)
Record UserItem : Set := mkUserItem {
  item_id : string;
  item_name : string
}.

(** A profile document; its [following] field may be missing. *)
Record UserProfile : Set := mkProfile {
  profile_following : option (list string)
}.

(** The three [useState] cells of the screen. *)
Record FollowState : Set := mkFollowState {
  users : list UserItem;
  following : list string;
  loading : bool
}.

(** [useState([])], [useState([])], [useState(true)] *)
Definition initialState : FollowState := mkFollowState [] [] true.

Section Fetch.

(** The two backend reads, as parameters; a profile may be null. *)
Variable getUserProfile : string → Awaited (option UserProfile).
Variable fetchAllUsersExceptCurrent : string → Awaited (list UserItem).

(** [fetchData()] of the mount effect. [user] is the uid of the auth
    context's user, [None] without a user; an empty uid is falsy, so
    [!user || !user.uid] returns early. The [finally] block runs on
    every path. [currentUserProfile?.following || []]: an array, even an
    empty one, is truthy. *)
Definition fetchData (user : option string) (st : FollowState) : FollowState :=
  match user with
  | None => mkFollowState (users st) (following st) false
  | Some uid =>
      if bool_decide (uid = "")
      then mkFollowState (users st) (following st) false
      else
        match getUserProfile uid with
        | Thrown => mkFollowState (users st) (following st) false
        | Fulfilled currentUserProfile =>
            let fetched :=
              default [] (currentUserProfile ≫= profile_following) in
            match fetchAllUsersExceptCurrent uid with
            | Thrown => mkFollowState (users st) fetched false
            | Fulfilled otherUsers => mkFollowState otherUsers fetched false
            end
        end
  end.

End Fetch.

(** The text of a row's button. *)
Inductive ButtonText : Set := FollowText | UnfollowText.

(** A row of the list: key, name, whether the button carries
    [styles.unfollowButton], its text, and the id its press toggles. *)
Record UserRow : Set := mkRow {
  row_key : string;
  row_name : string;
  row_unfollowButton : bool;
  row_text : ButtonText;
  row_target : string
}.

(** What the screen draws: the loading text, or the list with its rows
    and, for an empty list, the 'No other users found' text. *)
Inductive ScreenView : Set :=
| LoadingUsers
| UserList (rows : list UserRow) (emptyText : bool).

(** [renderItem] of the [FlatList]. *)
Definition renderItem (followed : list string) (item : UserItem) : UserRow :=
  mkRow (item_id item) (item_name item)
    (includes followed (item_id item))
    (if includes followed (item_id item) then UnfollowText else FollowText)
    (item_id item).

(** The component's return. *)
Definition render (st : FollowState) : ScreenView :=
  if loading st then LoadingUsers
  else UserList (renderItem (following st) <$> users st)
         (bool_decide (users st = [])).

(** A press on the button of [targetUserId], from the render of [st]. *)
Definition pressButton (toggleFollowUser : string → string → bool → BackendOutcome)
    (user : option string) (st : FollowState) (targetUserId : string)
    : FollowState :=
  mkFollowState (users st)
    (final (press toggleFollowUser user (following st) targetUserId))
    (loading st).

(** Sample reads. *)
Definition profileOf (followed : list string) (_ : string)
    : Awaited (option UserProfile) :=
  Fulfilled (Some (mkProfile (Some followed))).
Definition usersAre (others : list UserItem) (_ : string)
    : Awaited (list UserItem) :=
  Fulfilled others.
Definition readFails {A : Type} (_ : string) : Awaited A := Thrown.

End FollowScreenView.

(** ** The rest of the map screen: the position, presses, the popup *)

Module HomeScreenActions.
Import FollowScreenView HomeScreen.

(** What [Location.getCurrentPositionAsync] resolves to, with the fields
    the screen reads. *)
Record Position : Set := mkPosition {
  coords_latitude : JsNumber;
  coords_longitude : JsNumber;
  position_timestamp : Z
}.

(** [getCurrentLocation()] of the mount effect: [permission] is what
    awaiting [requestForegroundPermissionsAsync] gives (the status),
    [position] what awaiting [getCurrentPositionAsync] gives when it is
    reached. The call of [animateToRegion] changes no state and is left
    out. *)
Definition getCurrentLocation (permission : Awaited string)
    (position : Awaited Position) (st : ScreenState) : ScreenState :=
  match permission with
  | Thrown => st
  | Fulfilled status =>
      if negb (bool_decide (status = "granted")) then st
      else
        match position with
        | Thrown => st
        | Fulfilled found =>
            mkScreen
              (Some (mkRegion (coords_latitude found) (coords_longitude found)
                       (Finite (922 # 10000)) (Finite (421 # 10000))))
              (Some (mkLocation (coords_latitude found) (coords_longitude found)
                       (position_timestamp found)))
              (user st) (userLocations st) (studySpaces st)
              (selectedUserId st) (zoomLevel st)
        end
  end.

(** What the [onPress] of a marker does to the state:
    [setSelectedUserId(userId)] or [bringSpaceToTop(spaceId)]. *)
Definition pressMarker (marker : Marker) (st : ScreenState) : ScreenState :=
  match onPress marker with
  | NoPress => st
  | SelectUser pressed =>
      mkScreen (region st) (currentLocation st) (user st) (userLocations st)
        (studySpaces st) (Some pressed) (zoomLevel st)
  | BringSpaceToTop pressed =>
      mkScreen (region st) (currentLocation st) (user st) (userLocations st)
        (bringSpaceToTop pressed (studySpaces st)) (selectedUserId st)
        (zoomLevel st)
  end.




(** A state with two followed users, one without a location. *)
Definition twoFriends : ScreenState :=
  mkScreen
    (Some (mkRegion (Finite (30286 # 1000)) (Finite (- (97737 # 1000)))
             (Finite (922 # 10000)) (Finite (421 # 10000))))
    None (Some sampleUser)
    [ sampleFriend (JsBoolean true) (JsString "quiet") 1000;
      mkUserLocation "bob" (Some "Bob Ray") None None JsUndefined JsUndefined ]
    [sampleSpace "pcl" "PCL"; sampleSpace "fac" "FAC"] None 15.

End HomeScreenActions.

(** ** Properties of the follow screen *)

Module FollowScreenProofs.
Import FollowScreen.

Lemma includes_true l x : includes l x = true ↔ x ∈ l.
Proof. unfold includes. apply bool_decide_eq_true. Qed.

Lemma includes_false l x : includes l x = false ↔ x ∉ l.
Proof. unfold includes. apply bool_decide_eq_false. Qed.

(** Filtering out a value that does not occur changes nothing. *)
Lemma filter_ne_absent (t : string) (l : list string) :
  t ∉ l → filter (λ id, id ≠ t) l = l.
Proof.
  induction l as [|y l IH]; intros Hnot; [reflexivity|].
  apply not_elem_of_cons in Hnot as [Hne Hl].
  rewrite filter_cons_True by congruence.
  by rewrite IH.
Qed.

Lemma filter_ne_app_last (t : string) (l : list string) :
  filter (λ id, id ≠ t) (l ++ [t]) = filter (λ id, id ≠ t) l.
Proof.
  rewrite filter_app, filter_cons_False by (intros H; by apply H).
  by rewrite filter_nil, app_nil_r.
Qed.

(** The list the rollback leaves, by prior membership of the target. *)
Lemma rollback_absent (t : string) (following : list string) :
  t ∉ following →
  revertUpdate following t (optimisticUpdate (includes following t) t following)
  = following.
Proof.
  intros Hnot. unfold revertUpdate, optimisticUpdate.
  apply includes_false in Hnot as Hinc. rewrite Hinc. simpl.
  rewrite filter_ne_app_last. by apply filter_ne_absent.
Qed.

Lemma rollback_present (t : string) (following : list string) :
  t ∈ following →
  revertUpdate following t (optimisticUpdate (includes following t) t following)
  = filter (λ id, id ≠ t) following ++ [t].
Proof.
  intros Hin. unfold revertUpdate, optimisticUpdate.
  apply includes_true in Hin as Hinc. by rewrite Hinc.
Qed.

Lemma caught_final toggle user following t :
  caught (press toggle user following t) = true →
  final (press toggle user following t)
  = revertUpdate following t (optimisticUpdate (includes following t) t following).
Proof.
  unfold press, handleFollowToggle, perform. cbn [call_uid call_target call_follow].
  destruct user as [uid|]; [|reflexivity].
  destruct (toggle uid t _); [discriminate|reflexivity].
Qed.

(** Three presses: a follow that the backend accepts, an unfollow that it
    rejects, and a press while signed out, where reading [user.uid]
    throws before any call is made. *)
Example press_follow_resolved :
  press alwaysResolves (Some "me") ["ann"] "bob"
  = mkPress ["ann"; "bob"] ["ann"; "bob"] [mkCall "me" "bob" true] false.
Proof. reflexivity. Qed.

Example press_unfollow_rejected :
  press alwaysRejects (Some "me") ["ann"; "bob"] "bob"
  = mkPress ["ann"] ["ann"; "bob"] [mkCall "me" "bob" false] true.
Proof. reflexivity. Qed.

Example press_signed_out :
  press alwaysResolves None ["ann"] "bob"
  = mkPress ["ann"; "bob"] ["ann"] [] true.
Proof. reflexivity. Qed.

Lemma optimistic_press toggle user following t :
  optimistic (press toggle user following t)
  = optimisticUpdate (includes following t) t following.
Proof.
  unfold press, handleFollowToggle, perform. cbn [call_uid call_target call_follow].
  destruct user as [uid|]; [|reflexivity].
  by destruct (toggle uid t _).
Qed.

(** The final list is the optimistic one, or the rolled-back one. *)
Lemma final_press toggle user following t :
  final (press toggle user following t)
  = if caught (press toggle user following t)
    then revertUpdate following t
           (optimisticUpdate (includes following t) t following)
    else optimisticUpdate (includes following t) t following.
Proof.
  unfold press, handleFollowToggle, perform. cbn [call_uid call_target call_follow].
  destruct user as [uid|]; [|reflexivity].
  by destruct (toggle uid t _).
Qed.

Lemma NoDup_optimisticUpdate (t : string) (following : list string) :
  NoDup following →
  NoDup (optimisticUpdate (includes following t) t following).
Proof.
  intros Hnd. unfold optimisticUpdate.
  destruct (includes following t) eqn:Hinc.
  - by apply NoDup_filter.
  - apply includes_false in Hinc.
    apply NoDup_app. split_and!; [done| |apply NoDup_singleton].
    intros x Hx ->%list_elem_of_singleton. contradiction.
Qed.

Lemma NoDup_rollback (t : string) (following : list string) :
  NoDup following →
  NoDup (revertUpdate following t
           (optimisticUpdate (includes following t) t following)).
Proof.
  intros Hnd. destruct (decide (t ∈ following)) as [Hin|Hnot].
  - rewrite rollback_present by done.
    apply NoDup_app. split_and!; [by apply NoDup_filter| |apply NoDup_singleton].
    intros x Hx ->%list_elem_of_singleton.
    apply list_elem_of_filter in Hx as [Hne _]. by apply Hne.
  - by rewrite rollback_absent.
Qed.

(** What the backend answers decides the press: a rejected call runs
    the [catch] block and rolls back, a resolved call keeps the
    optimistic list. *)
Lemma press_rejected (toggle : string → string → bool → BackendOutcome)
    (uid : string) (following : list string) (t : string) :
  toggle uid t (negb (includes following t)) = Rejected →
  press toggle (Some uid) following t
  = mkPress (optimisticUpdate (includes following t) t following)
      (revertUpdate following t
         (optimisticUpdate (includes following t) t following))
      [mkCall uid t (negb (includes following t))] true.
Proof.
  intros Hrejected. unfold press, handleFollowToggle, perform.
  cbn [call_uid call_target call_follow]. by rewrite Hrejected.
Qed.

Lemma press_resolved (toggle : string → string → bool → BackendOutcome)
    (uid : string) (following : list string) (t : string) :
  toggle uid t (negb (includes following t)) = Resolved →
  press toggle (Some uid) following t
  = mkPress (optimisticUpdate (includes following t) t following)
      (optimisticUpdate (includes following t) t following)
      [mkCall uid t (negb (includes following t))] false.
Proof.
  intros Hresolved. unfold press, handleFollowToggle, perform.
  cbn [call_uid call_target call_follow]. by rewrite Hresolved.
Qed.

Lemma caught_iff_rejected (toggle : string → string → bool → BackendOutcome)
    (uid : string) (following : list string) (t : string) :
  caught (press toggle (Some uid) following t) = true
  ↔ toggle uid t (negb (includes following t)) = Rejected.
Proof.
  destruct (toggle uid t (negb (includes following t))) eqn:Houtcome.
  - by rewrite (press_resolved _ _ _ _ Houtcome).
  - by rewrite (press_rejected _ _ _ _ Houtcome).
Qed.

(** Who is followed after the rollback is who was followed before. *)
Lemma rollback_membership (t x : string) (following : list string) :
  x ∈ revertUpdate following t
        (optimisticUpdate (includes following t) t following)
  ↔ x ∈ following.
Proof.
  destruct (decide (t ∈ following)) as [Hin|Hnot].
  - rewrite rollback_present by done.
    rewrite elem_of_app, list_elem_of_filter, list_elem_of_singleton.
    destruct (decide (x = t)) as [->|Hne]; intuition congruence.
  - by rewrite rollback_absent.
Qed.

(** C3, as stated, fails: unfollowing the first of two followed users
    and having the backend call rejected leaves the list in another
    order than before the press. *)
Lemma C3_rollback_reorders :
  alwaysRejects "me" "ann" (negb (includes ["ann"; "bob"] "ann")) = Rejected
  ∧ caught (press alwaysRejects (Some "me") ["ann"; "bob"] "ann") = true
  ∧ final (press alwaysRejects (Some "me") ["ann"; "bob"] "ann") = ["bob"; "ann"]
  ∧ final (press alwaysRejects (Some "me") ["ann"; "bob"] "ann") ≠ ["ann"; "bob"].
Proof. split_and!; [reflexivity|reflexivity|reflexivity|discriminate]. Qed.

(** C3 (amended): when the backend call
    [toggleFollowUser(uid, t, !isCurrentlyFollowing)] is rejected, the
    [catch] block runs and its rollback restores who is followed: every
    user id is in the final list if and only if it was in the list before
    the press. If the target was not followed before, the list is
    restored element for element; if it was, every occurrence of the
    target has been removed and one put back at the end, which for a
    list without duplicates is a permutation of the list before the
    press. *)
Theorem C3_rollback_restores_membership
    (toggle : string → string → bool → BackendOutcome)
    (uid : string) (following : list string) (t : string) :
  toggle uid t (negb (includes following t)) = Rejected →
  caught (press toggle (Some uid) following t) = true
  ∧ (∀ x, x ∈ final (press toggle (Some uid) following t) ↔ x ∈ following)
  ∧ (t ∉ following → final (press toggle (Some uid) following t) = following)
  ∧ (t ∈ following →
     final (press toggle (Some uid) following t)
     = filter (λ id, id ≠ t) following ++ [t])
  ∧ (NoDup following →
     final (press toggle (Some uid) following t) ≡ₚ following).
Proof.
  intros Hrejected. rewrite (press_rejected _ _ _ _ Hrejected).
  cbn [caught final].
  split_and!; [reflexivity|intros x; apply rollback_membership
              |apply rollback_absent|apply rollback_present|].
  intros Hnd. apply NoDup_Permutation; [by apply NoDup_rollback|done|].
  intros x. apply rollback_membership.
Qed.

Lemma C3_rollback_restores_membership_witness :
  alwaysRejects "me" "ann" (negb (includes ["ann"; "bob"] "ann")) = Rejected
  ∧ caught (press alwaysRejects (Some "me") ["ann"; "bob"] "ann") = true
  ∧ (∀ x, x ∈ final (press alwaysRejects (Some "me") ["ann"; "bob"] "ann")
          ↔ x ∈ ["ann"; "bob"])
  ∧ ("ann" ∉ ["ann"; "bob"] →
     final (press alwaysRejects (Some "me") ["ann"; "bob"] "ann")
     = ["ann"; "bob"])
  ∧ ("ann" ∈ ["ann"; "bob"] →
     final (press alwaysRejects (Some "me") ["ann"; "bob"] "ann")
     = filter (λ id, id ≠ "ann") ["ann"; "bob"] ++ ["ann"])
  ∧ (NoDup ["ann"; "bob"] →
     final (press alwaysRejects (Some "me") ["ann"; "bob"] "ann")
     ≡ₚ ["ann"; "bob"]).
Proof.
  split; [reflexivity|].
  apply (C3_rollback_restores_membership alwaysRejects "me"
           ["ann"; "bob"] "ann").
  reflexivity.
Defined.

(** C4, as stated, fails without a user: reading [user.uid] throws after
    the optimistic update, no backend call is made, and the update is
    rolled back. *)
Lemma C4_no_user_no_call :
  optimistic (press alwaysResolves None ["ann"] "bob") = ["ann"; "bob"]
  ∧ calls (press alwaysResolves None ["ann"] "bob") = []
  ∧ caught (press alwaysResolves None ["ann"] "bob") = true
  ∧ final (press alwaysResolves None ["ann"] "bob") = ["ann"].
Proof. by split_and!. Qed.

(** C4 (amended): the optimistic update toggles the membership of the
    target, with or without a user: it is in the updated list if and
    only if it was not in the list before. For a signed-in user the
    handler makes exactly one backend call,
    [toggleFollowUser(uid, t, !isCurrentlyFollowing)], whose desired
    state is the negation of the prior membership, and the answer of
    the backend to that very call decides whether the [catch] block
    runs. Without a user no backend call is made and the [catch] block
    runs. *)
Theorem C4_optimistic_toggle
    (toggle : string → string → bool → BackendOutcome)
    (uid : string) (following : list string) (t : string) :
  (∀ user, t ∈ optimistic (press toggle user following t) ↔ t ∉ following)
  ∧ calls (press toggle (Some uid) following t)
    = [mkCall uid t (negb (includes following t))]
  ∧ (negb (includes following t) = true ↔ t ∉ following)
  ∧ (caught (press toggle (Some uid) following t) = true
     ↔ toggle uid t (negb (includes following t)) = Rejected)
  ∧ (caught (press toggle (Some uid) following t) = false
     ↔ toggle uid t (negb (includes following t)) = Resolved)
  ∧ calls (press toggle None following t) = []
  ∧ caught (press toggle None following t) = true.
Proof.
  split_and!.
  - intros user. rewrite optimistic_press. unfold optimisticUpdate.
    destruct (includes following t) eqn:Hinc.
    + apply includes_true in Hinc. rewrite list_elem_of_filter. tauto.
    + apply includes_false in Hinc.
      rewrite elem_of_app, list_elem_of_singleton. tauto.
  - destruct (toggle uid t (negb (includes following t))) eqn:Houtcome.
    + by rewrite (press_resolved _ _ _ _ Houtcome).
    + by rewrite (press_rejected _ _ _ _ Houtcome).
  - rewrite negb_true_iff. apply includes_false.
  - apply caught_iff_rejected.
  - destruct (toggle uid t (negb (includes following t))) eqn:Houtcome.
    + by rewrite (press_resolved _ _ _ _ Houtcome).
    + by rewrite (press_rejected _ _ _ _ Houtcome).
  - reflexivity.
  - reflexivity.
Qed.

(** C5: on a following list without duplicates, the list set by the
    optimistic update has no duplicates, and neither has the list the
    handler leaves, rolled back or not. *)
Theorem C5_no_duplicates
    (toggle : string → string → bool → BackendOutcome)
    (user : option string) (following : list string) (t : string) :
  NoDup following →
  NoDup (optimistic (press toggle user following t))
  ∧ NoDup (final (press toggle user following t))
  ∧ NoDup (revertUpdate following t (optimistic (press toggle user following t))).
Proof.
  intros Hnd. rewrite optimistic_press, final_press.
  split_and!.
  - by apply NoDup_optimisticUpdate.
  - destruct (caught _); [by apply NoDup_rollback|by apply NoDup_optimisticUpdate].
  - by apply NoDup_rollback.
Qed.

Lemma NoDup_ann_bob : NoDup ["ann"; "bob"].
Proof. apply (bool_decide_unpack _). reflexivity. Qed.

Lemma C5_no_duplicates_witness :
  NoDup ["ann"; "bob"]
  ∧ (NoDup (optimistic (press alwaysRejects (Some "me") ["ann"; "bob"] "ann"))
     ∧ NoDup (final (press alwaysRejects (Some "me") ["ann"; "bob"] "ann"))
     ∧ NoDup (revertUpdate ["ann"; "bob"] "ann"
                (optimistic (press alwaysRejects (Some "me") ["ann"; "bob"] "ann")))).
Proof.
  split; [exact NoDup_ann_bob|].
  apply (C5_no_duplicates alwaysRejects (Some "me") ["ann"; "bob"] "ann").
  exact NoDup_ann_bob.
Defined.

End FollowScreenProofs.

(** ** Properties of the map screen *)

Module HomeScreenProofs.
Import HomeScreen.

(** *** The opacity *)

Lemma glowOp_cases (glowOpacity : JsValue) :
  glowOp glowOpacity = Finite (15 # 100)
  ∨ glowOp glowOpacity = Finite (7 # 10)
  ∨ glowOp glowOpacity = Finite (5 # 10)
  ∨ ∃ q, glowOpacity = JsNum (Finite q) ∧ glowOp glowOpacity = Finite q
         ∧ (15 # 100 <= q)%Q ∧ (q <= 7 # 10)%Q.
Proof.
  destruct glowOpacity as [| | |n| |]; simpl; auto.
  destruct n as [| |q|]; simpl; auto.
  destruct (Qle_bool (7 # 10) q) eqn:Hhi; simpl; auto.
  destruct (Qle_bool (15 # 100) q) eqn:Hlo; auto.
  do 3 right. exists q. split_and!; [done|done|by apply Qle_bool_iff|].
  apply Qlt_le_weak, Qnot_le_lt. intros H%Qle_bool_iff. congruence.
Qed.

Lemma glowOp_inGlowRange (glowOpacity : JsValue) :
  inGlowRange (glowOp glowOpacity).
Proof.
  destruct (glowOp_cases glowOpacity) as [->|[->|[->|(q & _ & -> & Hlo & Hhi)]]];
    simpl; try (split; discriminate); by split.
Qed.

(** Every branch of [getGlowStyle] returns a sheet entry with the
    override built from the same opacity. *)
Lemma getGlowStyle_glow now userLocation currentUser selected glowOpacity :
  ∃ n r g b,
    getGlowStyle now userLocation currentUser selected glowOpacity
    = glow n r g b (glowOp glowOpacity).
Proof.
  unfold getGlowStyle.
  repeat match goal with
         | |- context [if ?c then _ else _] => destruct c
         | |- context [match ?o with Some _ => _ | None => _ end] => destruct o
         end; eauto.
Qed.

Lemma styles_inGlowRange (n : GlowName) :
  inGlowRange (shadowOpacity (styles n))
  ∧ inGlowRange (alpha (shadowColor (styles n)))
  ∧ inGlowRange (alpha (borderColor (styles n))).
Proof. destruct n; simpl; split_and!; discriminate. Qed.

(** C8: the opacity [getGlowStyle] works with lies in [0.15, 0.7] for
    every argument: a number is clamped to the interval (infinities
    included), and NaN or a value that is not a number gives 0.5. Every
    returned style carries that opacity as the shadow opacity and as the
    alpha of both colours of its override, and the sheet entry it starts
    with has its own opacity and alphas in the interval too. *)
Theorem C8_opacity_in_range (glowOpacity : JsValue) :
  inGlowRange (glowOp glowOpacity)
  ∧ (∀ q, glowOpacity = JsNum (Finite q) →
       ((q < 15 # 100)%Q → glowOp glowOpacity = Finite (15 # 100))
       ∧ ((15 # 100 <= q)%Q → (q < 7 # 10)%Q → glowOp glowOpacity = Finite q)
       ∧ ((7 # 10 <= q)%Q → glowOp glowOpacity = Finite (7 # 10)))
  ∧ (glowOpacity = JsNum PosInfinity → glowOp glowOpacity = Finite (7 # 10))
  ∧ (glowOpacity = JsNum NegInfinity → glowOp glowOpacity = Finite (15 # 100))
  ∧ (glowOpacity = JsNum NaN → glowOp glowOpacity = Finite (5 # 10))
  ∧ ((∀ n, glowOpacity ≠ JsNum n) → glowOp glowOpacity = Finite (5 # 10))
  ∧ (∀ now userLocation currentUser selected,
       let style := getGlowStyle now userLocation currentUser selected glowOpacity in
       over_shadowOpacity style.2 = glowOp glowOpacity
       ∧ alpha (over_borderColor style.2) = glowOp glowOpacity
       ∧ alpha (over_shadowColor style.2) = glowOp glowOpacity
       ∧ inGlowRange (shadowOpacity style.1)
       ∧ inGlowRange (alpha (shadowColor style.1))
       ∧ inGlowRange (alpha (borderColor style.1))).
Proof.
  split_and!.
  - apply glowOp_inGlowRange.
  - intros q ->. simpl. split_and!.
    + intros Hlt.
      assert (Hhi : Qle_bool (7 # 10) q = false).
      { apply not_true_is_false. intros H%Qle_bool_iff.
        apply (Qlt_irrefl q). eapply Qlt_le_trans; [exact Hlt|].
        eapply Qle_trans; [|exact H]. discriminate. }
      assert (Hlo : Qle_bool (15 # 100) q = false).
      { apply not_true_is_false. intros H%Qle_bool_iff.
        apply (Qlt_irrefl q). by eapply Qlt_le_trans. }
      by rewrite Hhi, Hlo.
    + intros Hlo Hlt.
      assert (Hhi : Qle_bool (7 # 10) q = false).
      { apply not_true_is_false. intros H%Qle_bool_iff.
        apply (Qlt_irrefl q). by eapply Qlt_le_trans. }
      apply Qle_bool_iff in Hlo. by rewrite Hhi, Hlo.
    + intros Hhi. apply Qle_bool_iff in Hhi. by rewrite Hhi.
  - by intros ->.
  - by intros ->.
  - by intros ->.
  - intros Hnot. destruct glowOpacity; try reflexivity. by destruct (Hnot n).
  - intros now userLocation currentUser selected style.
    destruct (getGlowStyle_glow now userLocation currentUser selected glowOpacity)
      as (n & r & g & b & Heq).
    subst style. rewrite Heq. simpl.
    split_and!; try reflexivity; apply styles_inGlowRange.
Qed.

(** *** The branches of getGlowStyle *)

(** The screen passes an [Animated.Value], not a number: its markers glow
    at 0.5. An active session of an unknown type falls back to green, and
    a session type without an active session to orange. *)
Example glowOp_animated_value : glowOp glowAnim0 = Finite (5 # 10).
Proof. reflexivity. Qed.

Example glow_unknown_type :
  getGlowStyle 2000 (sampleFriend (JsBoolean true) (JsString "group") 1000)
    (Some sampleUser) None glowAnim0
  = greenGlow (Finite (5 # 10)).
Proof. reflexivity. Qed.

Example glow_type_without_session :
  getGlowStyle 2000 (sampleFriend (JsBoolean false) (JsString "quiet") 1000)
    (Some sampleUser) None glowAnim0
  = orangeGlow (Finite (5 # 10)).
Proof. reflexivity. Qed.

Lemma not_self userLocation currentUser :
  ¬ isSelf userLocation currentUser →
  bool_decide (Some (userId userLocation) = optUid currentUser) = false.
Proof. intros H. by apply bool_decide_eq_false. Qed.

(** C1: for a followed user (another user than the current one) whose
    session is active, the glow follows the session type: green for
    'collaborative', yellow for 'quiet', red for 'individual'. *)
Theorem C1_active_session_glow (now : Z) (userLocation : UserLocation)
    (currentUser : option AuthUser) (selected : option string)
    (glowOpacity : JsValue) :
  ¬ isSelf userLocation currentUser →
  truthy (sessionActive userLocation) = true →
  (sessionType userLocation = JsString "collaborative" →
   getGlowStyle now userLocation currentUser selected glowOpacity
   = greenGlow (glowOp glowOpacity))
  ∧ (sessionType userLocation = JsString "quiet" →
     getGlowStyle now userLocation currentUser selected glowOpacity
     = yellowGlow (glowOp glowOpacity))
  ∧ (sessionType userLocation = JsString "individual" →
     getGlowStyle now userLocation currentUser selected glowOpacity
     = redGlow (glowOp glowOpacity)).
Proof.
  intros Hother Hactive. unfold getGlowStyle.
  rewrite (not_self _ _ Hother), Hactive. simpl.
  split_and!; intros ->; reflexivity.
Qed.

Lemma C1_active_session_glow_witness :
  let ann := sampleFriend (JsBoolean true) (JsString "quiet") 1000 in
  ¬ isSelf ann (Some sampleUser)
  ∧ truthy (sessionActive ann) = true
  ∧ (sessionType ann = JsString "quiet" →
     getGlowStyle 2000 ann (Some sampleUser) None (JsNum (Finite (3 # 10)))
     = yellowGlow (Finite (3 # 10))).
Proof.
  intros ann.
  assert (Hother : ¬ isSelf ann (Some sampleUser)) by (unfold isSelf; discriminate).
  split_and!; [exact Hother|reflexivity|].
  apply (C1_active_session_glow 2000 ann (Some sampleUser) None
           (JsNum (Finite (3 # 10))) Hother eq_refl).
Defined.

Lemma gray_not_orange (op : JsNumber) : grayGlow op ≠ orangeGlow op.
Proof. discriminate. Qed.

(** C2: for a user location that is not the current user's, with a
    falsy [sessionActive] and no [sessionType], the glow is the gray
    'inactive' one if and only if the location is missing or its
    timestamp is more than 30 minutes before the current time, and the
    orange 'no session' one otherwise. *)
Theorem C2_inactive_or_no_session (now : Z) (userLocation : UserLocation)
    (currentUser : option AuthUser) (selected : option string)
    (glowOpacity : JsValue) :
  ¬ isSelf userLocation currentUser →
  truthy (sessionActive userLocation) = false →
  truthy (sessionType userLocation) = false →
  (getGlowStyle now userLocation currentUser selected glowOpacity
   = grayGlow (glowOp glowOpacity)
   ↔ stale now userLocation)
  ∧ (¬ stale now userLocation →
     getGlowStyle now userLocation currentUser selected glowOpacity
     = orangeGlow (glowOp glowOpacity)).
Proof.
  intros Hother Hactive Htype. unfold getGlowStyle, stale.
  rewrite (not_self _ _ Hother), Hactive, Htype. simpl.
  destruct (location userLocation) as [loc|]; [|by split].
  destruct (Z.ltb_spec (30 * 60 * 1000) (now - timestamp loc)) as [Hold|Hrecent].
  - split; [split; [lia|reflexivity]|lia].
  - split; [|reflexivity].
    split; [|lia]. intros Heq. by destruct (gray_not_orange _ (eq_sym Heq)).
Qed.

Lemma C2_inactive_or_no_session_witness :
  let ann := sampleFriend (JsBoolean false) JsUndefined 1000 in
  ¬ isSelf ann (Some sampleUser)
  ∧ truthy (sessionActive ann) = false
  ∧ truthy (sessionType ann) = false
  ∧ (getGlowStyle 1801001 ann (Some sampleUser) None JsObject
     = grayGlow (glowOp JsObject)
     ↔ stale 1801001 ann)
  ∧ (¬ stale 1801001 ann →
     getGlowStyle 1801001 ann (Some sampleUser) None JsObject
     = orangeGlow (glowOp JsObject)).
Proof.
  intros ann.
  assert (Hother : ¬ isSelf ann (Some sampleUser)) by (unfold isSelf; discriminate).
  split_and!; [exact Hother|reflexivity|reflexivity| |];
    apply (C2_inactive_or_no_session 1801001 ann (Some sampleUser) None JsObject
             Hother eq_refl eq_refl).
Defined.

(** C7: at the same current time and with the same opacity argument,
    two calls whose inputs agree on whether the marker is the current
    user's, on [sessionActive], on [sessionType] and on the presence and
    timestamp of the location return equal styles, whatever the other
    fields, the current users and the selected user ids are. *)
Theorem C7_depends_on_four_fields (now : Z)
    (userLocation1 userLocation2 : UserLocation)
    (currentUser1 currentUser2 : option AuthUser)
    (selected1 selected2 : option string) (glowOpacity : JsValue) :
  (isSelf userLocation1 currentUser1 ↔ isSelf userLocation2 currentUser2) →
  sessionActive userLocation1 = sessionActive userLocation2 →
  sessionType userLocation1 = sessionType userLocation2 →
  timestamp <$> location userLocation1 = timestamp <$> location userLocation2 →
  getGlowStyle now userLocation1 currentUser1 selected1 glowOpacity
  = getGlowStyle now userLocation2 currentUser2 selected2 glowOpacity.
Proof.
  intros Hself Hactive Htype Hloc. unfold getGlowStyle.
  unfold isSelf in Hself.
  rewrite (bool_decide_ext _ _ Hself), Hactive, Htype.
  destruct (location userLocation1) as [loc1|],
           (location userLocation2) as [loc2|];
    simpl in Hloc; try discriminate; [|reflexivity].
  injection Hloc as ->. reflexivity.
Qed.

Lemma C7_depends_on_four_fields_witness :
  let ann := sampleFriend (JsBoolean true) (JsString "quiet") 1000 in
  let bob :=
    mkUserLocation "bob" (Some "Bob Ray")
      (Some (mkLocation (Finite 1) (Finite 2) 1000)) (Some "bob.png")
      (JsBoolean true) (JsString "quiet") in
  (isSelf ann (Some sampleUser) ↔ isSelf bob None)
  ∧ sessionActive ann = sessionActive bob
  ∧ sessionType ann = sessionType bob
  ∧ timestamp <$> location ann = timestamp <$> location bob
  ∧ getGlowStyle 5000 ann (Some sampleUser) None JsObject
    = getGlowStyle 5000 bob None (Some "bob") JsObject.
Proof.
  intros ann bob.
  assert (Hself : isSelf ann (Some sampleUser) ↔ isSelf bob None)
    by (unfold isSelf; split; discriminate).
  split_and!; [exact Hself|reflexivity|reflexivity|reflexivity|].
  apply (C7_depends_on_four_fields 5000 ann bob (Some sampleUser) None None
           (Some "bob") JsObject Hself eq_refl eq_refl eq_refl).
Defined.

(** C10: when the marker's user id is the current user's uid, the glow
    is the blue 'self' one, whatever [sessionActive], [sessionType] and
    the location are. *)
Theorem C10_self_first (now : Z) (userLocation : UserLocation)
    (currentUser : AuthUser) (selected : option string)
    (glowOpacity : JsValue) :
  userId userLocation = uid currentUser →
  getGlowStyle now userLocation (Some currentUser) selected glowOpacity
  = blueGlow (glowOp glowOpacity).
Proof.
  intros Heq. unfold getGlowStyle. simpl. rewrite Heq.
  by rewrite bool_decide_eq_true_2.
Qed.

Lemma C10_self_first_witness :
  let me :=
    mkUserLocation "me" (Some "Me")
      (Some (mkLocation (Finite 1) (Finite 2) 0)) None
      (JsBoolean true) (JsString "individual") in
  userId me = uid sampleUser
  ∧ getGlowStyle 1801001 me (Some sampleUser) None (JsNum (Finite 1))
    = blueGlow (Finite (7 # 10)).
Proof.
  intros me. split; [reflexivity|].
  apply (C10_self_first 1801001 me sampleUser None (JsNum (Finite 1)) eq_refl).
Defined.

(** *** bringSpaceToTop *)

Section FindIndex.
Context {A : Type} (p : A → bool).

Lemma findIndex_absent (l : list A) :
  Forall (λ x, p x = false) l → findIndex p l = (-1)%Z.
Proof.
  induction 1 as [|x l Hx _ IH]; simpl; [reflexivity|].
  by rewrite Hx, IH.
Qed.

(** The index found is that of the first element satisfying [p]. *)
Lemma findIndex_first (before : list A) (x : A) (after : list A) :
  Forall (λ y, p y = false) before → p x = true →
  findIndex p (before ++ x :: after) = Z.of_nat (length before).
Proof.
  intros Hbefore Hx.
  induction Hbefore as [|y before Hy _ IH]; simpl; [by rewrite Hx|].
  rewrite Hy, IH.
  destruct (Z.eqb_spec (Z.of_nat (length before)) (-1)); lia.
Qed.

(** A list either has no element satisfying [p], or splits at the
    first one. *)
Lemma first_split (l : list A) :
  Forall (λ x, p x = false) l
  ∨ ∃ before x after,
      l = before ++ x :: after
      ∧ Forall (λ y, p y = false) before ∧ p x = true.
Proof.
  induction l as [|y l IH]; [left; constructor|].
  destruct (p y) eqn:Hy.
  - right. exists [], y, l. by split_and!.
  - destruct IH as [Hall|(before & x & after & -> & Hbefore & Hx)].
    + left. by constructor.
    + right. exists (y :: before), x, after.
      split_and!; [reflexivity|by constructor|done].
Qed.

Lemma filterFrom_keep (from k : Z) (l : list A) :
  (k < from)%Z → filterFrom from (λ _ i, negb (i =? k)%Z) l = l.
Proof.
  revert from. induction l as [|x l IH]; intros from Hlt; simpl; [reflexivity|].
  destruct (Z.eqb_spec from k); [lia|]. simpl.
  by rewrite IH by lia.
Qed.

(** Filtering on [i !== index] drops exactly the element at [index]. *)
Lemma filterFrom_drop (from k : Z) (before : list A) (x : A) (after : list A) :
  k = (from + Z.of_nat (length before))%Z →
  filterFrom from (λ _ i, negb (i =? k)%Z) (before ++ x :: after)
  = before ++ after.
Proof.
  revert from. induction before as [|y before IH]; intros from Hk; simpl.
  - simpl in Hk. rewrite Z.add_0_r in Hk. subst k.
    rewrite Z.eqb_refl. simpl. apply filterFrom_keep. lia.
  - destruct (Z.eqb_spec from k) as [->|_];
      [rewrite length_cons in Hk; lia|]. simpl.
    f_equal. apply IH. rewrite length_cons in Hk. lia.
Qed.

End FindIndex.

Lemma bringSpaceToTop_absent (spaceId : string) (prevSpaces : list StudySpace) :
  Forall (λ space, hasId spaceId space = false) prevSpaces →
  bringSpaceToTop spaceId prevSpaces = prevSpaces.
Proof.
  intros Hall. unfold bringSpaceToTop.
  change (λ space, bool_decide (id space = spaceId)) with (hasId spaceId).
  by rewrite (findIndex_absent _ _ Hall).
Qed.

Lemma bringSpaceToTop_found (spaceId : string)
    (before : list StudySpace) (selected : StudySpace) (after : list StudySpace) :
  Forall (λ space, hasId spaceId space = false) before →
  hasId spaceId selected = true →
  bringSpaceToTop spaceId (before ++ selected :: after)
  = selected :: before ++ after.
Proof.
  intros Hbefore Hsel. unfold bringSpaceToTop.
  change (λ space, bool_decide (id space = spaceId)) with (hasId spaceId).
  rewrite (findIndex_first _ _ _ after Hbefore Hsel).
  destruct (Z.eqb_spec (Z.of_nat (length before)) (-1)); [lia|].
  rewrite Nat2Z.id, list_lookup_middle by reflexivity.
  unfold filterIndexed. by rewrite filterFrom_drop by lia.
Qed.

(** The index [findIndex] returns is in range, so [prevSpaces[index]]
    is an element of the list. *)
Lemma findIndex_lookup (spaceId : string) (prevSpaces : list StudySpace) :
  findIndex (hasId spaceId) prevSpaces ≠ (-1)%Z →
  ∃ selected,
    prevSpaces !! Z.to_nat (findIndex (hasId spaceId) prevSpaces) = Some selected
    ∧ id selected = spaceId.
Proof.
  intros Hfound.
  destruct (first_split (hasId spaceId) prevSpaces)
    as [Hall|(before & x & after & -> & Hbefore & Hx)].
  - by rewrite (findIndex_absent _ _ Hall) in Hfound.
  - exists x. rewrite (findIndex_first _ _ _ after Hbefore Hx), Nat2Z.id.
    split; [by apply list_lookup_middle|].
    by apply bool_decide_eq_true in Hx.
Qed.

(** C9: [bringSpaceToTop] returns the list unchanged when no space has
    the id; otherwise the list splits at the first space with that id,
    and the result is that space followed by the spaces before it and
    the spaces after it, in their order. In both cases the result is a
    permutation of the list. *)
Theorem C9_bringSpaceToTop (spaceId : string) (prevSpaces : list StudySpace) :
  ((∀ space, space ∈ prevSpaces → id space ≠ spaceId) →
   bringSpaceToTop spaceId prevSpaces = prevSpaces)
  ∧ ((∃ space, space ∈ prevSpaces ∧ id space = spaceId) →
     ∃ before selected after,
       prevSpaces = before ++ selected :: after
       ∧ (∀ space, space ∈ before → id space ≠ spaceId)
       ∧ id selected = spaceId
       ∧ bringSpaceToTop spaceId prevSpaces = selected :: before ++ after)
  ∧ bringSpaceToTop spaceId prevSpaces ≡ₚ prevSpaces.
Proof.
  assert (Hno : ∀ l : list StudySpace,
    Forall (λ space, hasId spaceId space = false) l
    ↔ ∀ space, space ∈ l → id space ≠ spaceId).
  { intros l. rewrite Forall_forall. unfold hasId.
    split; intros H space Hin.
    - apply (bool_decide_eq_false_1 _). by apply H.
    - apply bool_decide_eq_false_2. by apply H. }
  destruct (first_split (hasId spaceId) prevSpaces)
    as [Hall|(before & x & after & -> & Hbefore & Hx)].
  - split_and!.
    + intros _. by apply bringSpaceToTop_absent.
    + intros (space & Hin & Hid). by destruct (proj1 (Hno _) Hall space Hin).
    + by rewrite bringSpaceToTop_absent.
  - split_and!.
    + intros Hnone. apply bringSpaceToTop_absent, Hno, Hnone.
    + intros _. exists before, x, after.
      split_and!; [reflexivity|by apply Hno| |by apply bringSpaceToTop_found].
      by apply bool_decide_eq_true in Hx.
    + rewrite bringSpaceToTop_found by done.
      apply Permutation_middle.
Qed.

(** [bringSpaceToTop] on three spaces: the last one comes first, and
    an unknown id changes nothing. *)
Example bringSpaceToTop_last :
  bringSpaceToTop "gdc"
    [sampleSpace "pcl" "PCL"; sampleSpace "fac" "FAC"; sampleSpace "gdc" "GDC"]
  = [sampleSpace "gdc" "GDC"; sampleSpace "pcl" "PCL"; sampleSpace "fac" "FAC"].
Proof. reflexivity. Qed.

Example bringSpaceToTop_unknown :
  bringSpaceToTop "eer" [sampleSpace "pcl" "PCL"; sampleSpace "fac" "FAC"]
  = [sampleSpace "pcl" "PCL"; sampleSpace "fac" "FAC"].
Proof. reflexivity. Qed.

(** *** The study-space markers *)

Lemma studySpaceMarker_props (zoom : Z) (space : StudySpace) :
  coordinate (studySpaceMarker zoom space)
  = mkCoordinate (fst (space_location space)) (snd (space_location space))
  ∧ title (studySpaceMarker zoom space) = Some (space_name space)
  ∧ description (studySpaceMarker zoom space) = Some (address space).
Proof. by split_and!. Qed.

(** An entry that has a picture to show or a name, or no location,
    does not throw. *)
Lemma followedUserElement_drawable (now : Z) (st : ScreenState)
    (entry : UserLocation) :
  (is_Some (location entry) → shownPicture (pfp entry) = None →
   is_Some (name entry)) →
  followedUserElement now st entry = Drawn (followedUserMarker now st entry).
Proof.
  intros Hname. unfold followedUserMarker, followedUserElement.
  destruct (location entry) as [loc|]; [|reflexivity].
  destruct (shownPicture (pfp entry)) as [picture|]; [reflexivity|].
  destruct (name entry) as [text|]; [reflexivity|].
  by destruct (Hname (mk_is_Some _ _ eq_refl) eq_refl).
Qed.

Lemma renderEach_drawable (now : Z) (st : ScreenState)
    (entries : list UserLocation) :
  namesDrawable entries →
  renderEach (followedUserElement now st) entries
  = Drawn (omap (followedUserMarker now st) entries).
Proof.
  induction entries as [|entry entries IH]; intros Hnames; [reflexivity|].
  cbn [renderEach omap list_omap].
  rewrite followedUserElement_drawable
    by (apply Hnames; apply list_elem_of_here).
  rewrite IH by (intros other Hother; apply Hnames; by apply list_elem_of_further).
  by destruct (followedUserMarker now st entry).
Qed.

(** With a region and no throwing entry, the map is drawn: its markers
    end with one marker per study space, in the order of the list. *)
Lemma mapView_region (now : Z) (st : ScreenState) :
  is_Some (region st) →
  namesDrawable (userLocations st) →
  mapView now st
  = Some ((currentLocationMarker now st ++ teamMarkers
           ++ omap (followedUserMarker now st) (userLocations st))
          ++ (studySpaceMarker (zoomLevel st) <$> studySpaces st)).
Proof.
  intros [r Hr] Hnames. unfold mapView, renderMap.
  rewrite Hr, (renderEach_drawable _ _ _ Hnames).
  by rewrite <- !app_assoc.
Qed.

Lemma renderedMarkers_region (now : Z) (st : ScreenState) :
  is_Some (region st) →
  namesDrawable (userLocations st) →
  renderedMarkers now st
  = (currentLocationMarker now st ++ teamMarkers
     ++ omap (followedUserMarker now st) (userLocations st))
    ++ (studySpaceMarker (zoomLevel st) <$> studySpaces st).
Proof.
  intros Hregion Hnames. unfold renderedMarkers.
  by rewrite (mapView_region _ _ Hregion Hnames).
Qed.

(** C6, as stated, fails: before a region is known the map is not
    drawn, so a loaded study space, shown as a card in the bottom
    sheet, has no marker. *)
Lemma C6_no_region_no_marker :
  sampleSpace "pcl" "PCL" ∈ studySpaces noRegionYet
  ∧ fst <$> smallCards noRegionYet = ["pcl"]
  ∧ mapView 0 noRegionYet = None
  ∧ renderedMarkers 0 noRegionYet = [].
Proof. split_and!; [constructor|reflexivity|reflexivity|reflexivity]. Qed.

(** C6 (amended): whenever the map is drawn, that is, a region is set
    and the followed users' markers render (every followed user with a
    location has a picture or a name), every study space of the list is
    drawn as a marker at coordinate (latitude = location[0],
    longitude = location[1]), with the space's name as title and its
    address as description; these markers are the last of the map, one
    per study space, in the order of the list. *)
Theorem C6_study_space_markers (now : Z) (st : ScreenState) (space : StudySpace) :
  is_Some (region st) →
  namesDrawable (userLocations st) →
  space ∈ studySpaces st →
  (∃ marker,
     marker ∈ renderedMarkers now st
     ∧ coordinate marker
       = mkCoordinate (fst (space_location space)) (snd (space_location space))
     ∧ title marker = Some (space_name space)
     ∧ description marker = Some (address space))
  ∧ ∃ others,
      mapView now st
      = Some (others ++ (studySpaceMarker (zoomLevel st) <$> studySpaces st))
      ∧ renderedMarkers now st
        = others ++ (studySpaceMarker (zoomLevel st) <$> studySpaces st).
Proof.
  intros Hregion Hnames Hin.
  rewrite (renderedMarkers_region now st Hregion Hnames),
          (mapView_region now st Hregion Hnames).
  split; [|by eexists].
  exists (studySpaceMarker (zoomLevel st) space).
  split; [|apply studySpaceMarker_props].
  apply elem_of_app. right. by apply list_elem_of_fmap_2.
Qed.

Lemma C6_study_space_markers_witness :
  let st := HomeScreenActions.twoFriends in
  is_Some (region st)
  ∧ namesDrawable (userLocations st)
  ∧ sampleSpace "fac" "FAC" ∈ studySpaces st
  ∧ (∃ marker,
       marker ∈ renderedMarkers 0 st
       ∧ coordinate marker
         = mkCoordinate (Finite (30286 # 1000)) (Finite (- (97737 # 1000)))
       ∧ title marker = Some "FAC"
       ∧ description marker = Some "2200 Speedway")
  ∧ ∃ others,
      mapView 0 st
      = Some (others
              ++ (studySpaceMarker 15
                  <$> [sampleSpace "pcl" "PCL"; sampleSpace "fac" "FAC"]))
      ∧ renderedMarkers 0 st
        = others
          ++ (studySpaceMarker 15
              <$> [sampleSpace "pcl" "PCL"; sampleSpace "fac" "FAC"]).
Proof.
  intros st.
  assert (Hregion : is_Some (region st)) by (eexists; reflexivity).
  assert (Hnames : namesDrawable (userLocations st)).
  { intros entry Hentry Hloc _.
    apply elem_of_cons in Hentry as [->|Hentry]; [by eexists|].
    apply list_elem_of_singleton in Hentry as ->.
    by destruct Hloc. }
  assert (Hin : sampleSpace "fac" "FAC" ∈ studySpaces st).
  { apply list_elem_of_further, list_elem_of_here. }
  split_and!; [exact Hregion|exact Hnames|exact Hin| |];
    apply (C6_study_space_markers 0 st (sampleSpace "fac" "FAC")
             Hregion Hnames Hin).
Defined.

End HomeScreenProofs.

(** ** Properties of the follow screen's lists and rows *)

Module FollowScreenViewProofs.
Import FollowScreen FollowScreenProofs FollowScreenView.

Lemma filter_ne_twice (t : string) (l : list string) :
  filter (λ id, id ≠ t) (filter (λ id, id ≠ t) l) = filter (λ id, id ≠ t) l.
Proof. apply filter_ne_absent. rewrite list_elem_of_filter. tauto. Qed.

Lemma filter_ne_optimistic (t : string) (flag : bool) (l : list string) :
  filter (λ id, id ≠ t) (optimisticUpdate flag t l) = filter (λ id, id ≠ t) l.
Proof.
  unfold optimisticUpdate. destruct flag;
    [apply filter_ne_twice|apply filter_ne_app_last].
Qed.

Lemma filter_ne_revert (t : string) (captured l : list string) :
  filter (λ id, id ≠ t) (revertUpdate captured t l) = filter (λ id, id ≠ t) l.
Proof.
  unfold revertUpdate. destruct (negb (includes captured t));
    [apply filter_ne_twice|apply filter_ne_app_last].
Qed.

(** Who is followed after a rollback is who was followed before. *)
Lemma rollback_elem_of (t x : string) (followed : list string) :
  x ∈ revertUpdate followed t (optimisticUpdate (includes followed t) t followed)
  ↔ x ∈ followed.
Proof.
  destruct (decide (t ∈ followed)) as [Hin|Hnot].
  - rewrite rollback_present by done.
    rewrite elem_of_app, list_elem_of_filter, list_elem_of_singleton.
    destruct (decide (x = t)) as [->|Hne]; intuition congruence.
  - by rewrite rollback_absent.
Qed.

(** After the optimistic update the target is followed exactly when it
    was not. *)
Lemma optimistic_elem_of_target (t : string) (followed : list string) :
  t ∈ optimisticUpdate (includes followed t) t followed ↔ t ∉ followed.
Proof.
  unfold optimisticUpdate. destruct (includes followed t) eqn:Hinc.
  - apply includes_true in Hinc. rewrite list_elem_of_filter. tauto.
  - apply includes_false in Hinc.
    rewrite elem_of_app, list_elem_of_singleton. tauto.
Qed.

Lemma includes_ext (l1 l2 : list string) (x : string) :
  (x ∈ l1 ↔ x ∈ l2) → includes l1 x = includes l2 x.
Proof. intros H. unfold includes. by apply bool_decide_ext. Qed.

Lemma elem_of_filter_ne (t x : string) (l : list string) :
  x ≠ t → (x ∈ l ↔ x ∈ filter (λ id, id ≠ t) l).
Proof. intros Hne. rewrite list_elem_of_filter. tauto. Qed.

Lemma final_filter_ne (toggle : string → string → bool → BackendOutcome)
    (user : option string) (followed : list string) (t : string) :
  filter (λ id, id ≠ t) (final (press toggle user followed t))
  = filter (λ id, id ≠ t) followed.
Proof.
  rewrite final_press. destruct (caught _).
  - by rewrite filter_ne_revert, filter_ne_optimistic.
  - apply filter_ne_optimistic.
Qed.

Lemma final_elem_of_other (toggle : string → string → bool → BackendOutcome)
    (user : option string) (followed : list string) (t x : string) :
  x ≠ t → (x ∈ final (press toggle user followed t) ↔ x ∈ followed).
Proof.
  intros Hne.
  rewrite (elem_of_filter_ne t x (final _) Hne), final_filter_ne.
  symmetry. by apply elem_of_filter_ne.
Qed.

(** X1: a press, whatever its outcome, touches only the target: the
    other ids of the list, in their order, are the same after the
    optimistic update and after the handler has finished, so every other
    user is followed afterwards exactly when it was before. *)
Theorem press_keeps_other_ids
    (toggle : string → string → bool → BackendOutcome)
    (user : option string) (followed : list string) (t : string) :
  filter (λ id, id ≠ t) (optimistic (press toggle user followed t))
  = filter (λ id, id ≠ t) followed
  ∧ filter (λ id, id ≠ t) (final (press toggle user followed t))
    = filter (λ id, id ≠ t) followed
  ∧ (∀ x, x ≠ t →
       (x ∈ final (press toggle user followed t) ↔ x ∈ followed)).
Proof.
  split_and!.
  - rewrite optimistic_press. apply filter_ne_optimistic.
  - apply final_filter_ne.
  - intros x. apply final_elem_of_other.
Qed.

(** X2: following a user and then unfollowing it, both accepted by the
    backend, gives back the list as it was, element for element; the two
    calls ask for [true], then for [false]. *)
Theorem follow_then_unfollow
    (toggle : string → string → bool → BackendOutcome)
    (uid : string) (followed : list string) (t : string) :
  t ∉ followed →
  toggle uid t true = Resolved →
  toggle uid t false = Resolved →
  final (press toggle (Some uid) (final (press toggle (Some uid) followed t)) t)
  = followed
  ∧ calls (press toggle (Some uid) followed t) = [mkCall uid t true]
  ∧ calls (press toggle (Some uid) (final (press toggle (Some uid) followed t)) t)
    = [mkCall uid t false].
Proof.
  intros Hnot Hfollow Hunfollow.
  apply includes_false in Hnot as Hinc.
  assert (Hfirst : press toggle (Some uid) followed t
                   = mkPress (followed ++ [t]) (followed ++ [t])
                       [mkCall uid t true] false).
  { unfold press, handleFollowToggle, perform, optimisticUpdate.
    rewrite Hinc. simpl. by rewrite Hfollow. }
  rewrite Hfirst. simpl.
  assert (Hinc2 : includes (followed ++ [t]) t = true).
  { apply includes_true, elem_of_app. right. by apply list_elem_of_singleton. }
  unfold press, handleFollowToggle, perform, optimisticUpdate.
  rewrite Hinc2. simpl. rewrite Hunfollow. simpl.
  split_and!; [|reflexivity|reflexivity].
  rewrite filter_ne_app_last. by apply filter_ne_absent.
Qed.

Lemma follow_then_unfollow_witness :
  ("bob" ∉ ["ann"; "cat"])
  ∧ alwaysResolves "me" "bob" true = Resolved
  ∧ alwaysResolves "me" "bob" false = Resolved
  ∧ final (press alwaysResolves (Some "me")
             (final (press alwaysResolves (Some "me") ["ann"; "cat"] "bob")) "bob")
    = ["ann"; "cat"]
  ∧ calls (press alwaysResolves (Some "me") ["ann"; "cat"] "bob")
    = [mkCall "me" "bob" true]
  ∧ calls (press alwaysResolves (Some "me")
             (final (press alwaysResolves (Some "me") ["ann"; "cat"] "bob")) "bob")
    = [mkCall "me" "bob" false].
Proof.
  assert (Hnot : "bob" ∉ ["ann"; "cat"]).
  { apply (bool_decide_unpack _). reflexivity. }
  split_and!; [exact Hnot|reflexivity|reflexivity| | |];
    apply (follow_then_unfollow alwaysResolves "me" ["ann"; "cat"] "bob"
             Hnot eq_refl eq_refl).
Defined.

(** A row depends on the following list only through the membership of
    its own id. *)
Lemma renderItem_ext (l1 l2 : list string) (item : UserItem) :
  (item_id item ∈ l1 ↔ item_id item ∈ l2) →
  renderItem l1 item = renderItem l2 item.
Proof. intros H. unfold renderItem. by rewrite (includes_ext l1 l2 _ H). Qed.

Lemma render_ext (st : FollowState) (l : list string) :
  (∀ x, x ∈ l ↔ x ∈ following st) →
  render (mkFollowState (users st) l (loading st)) = render st.
Proof.
  intros H. unfold render. simpl. destruct (loading st); [reflexivity|].
  f_equal. apply list_fmap_ext. intros _ item _. apply renderItem_ext, H.
Qed.

(** X3: when the [catch] block runs (the backend call is rejected, or
    there is no user), the screen is drawn exactly as before the press:
    every row has the button text and style it had, although the list
    behind it may be in another order. *)
Theorem failed_press_restores_rows
    (toggle : string → string → bool → BackendOutcome)
    (user : option string) (st : FollowState) (t : string) :
  caught (press toggle user (following st) t) = true →
  render (pressButton toggle user st t) = render st.
Proof.
  intros Hcaught. unfold pressButton.
  rewrite (caught_final _ _ _ _ Hcaught).
  apply render_ext. intros x. apply rollback_elem_of.
Qed.

Lemma failed_press_restores_rows_witness :
  let st := mkFollowState [mkUserItem "ann" "Ann"; mkUserItem "bob" "Bob"]
              ["ann"; "bob"] false in
  caught (press alwaysRejects (Some "me") (following st) "ann") = true
  ∧ following (pressButton alwaysRejects (Some "me") st "ann") = ["bob"; "ann"]
  ∧ render (pressButton alwaysRejects (Some "me") st "ann") = render st.
Proof.
  intros st. split_and!; [reflexivity|reflexivity|].
  apply (failed_press_restores_rows alwaysRejects (Some "me") st "ann" eq_refl).
Defined.

(** X4: a press whose backend call
    [toggleFollowUser(uid, t, !isCurrentlyFollowing)] is accepted flips
    the button of the target (its text and its style) and leaves every
    other row as it was. *)
Theorem accepted_press_flips_one_row
    (toggle : string → string → bool → BackendOutcome)
    (uid : string) (st : FollowState) (t : string) (item : UserItem) :
  toggle uid t (negb (includes (following st) t)) = Resolved →
  caught (press toggle (Some uid) (following st) t) = false
  ∧ (item_id item ≠ t →
     renderItem (following (pressButton toggle (Some uid) st t)) item
     = renderItem (following st) item)
  ∧ (item_id item = t →
     row_unfollowButton
       (renderItem (following (pressButton toggle (Some uid) st t)) item)
     = negb (row_unfollowButton (renderItem (following st) item))
     ∧ row_text (renderItem (following (pressButton toggle (Some uid) st t)) item)
       = match row_text (renderItem (following st) item) with
         | FollowText => UnfollowText
         | UnfollowText => FollowText
         end).
Proof.
  intros Hresolved. unfold pressButton. cbn [following].
  split_and!.
  - by rewrite (press_resolved _ _ _ _ Hresolved).
  - intros Hne. apply renderItem_ext. by apply final_elem_of_other.
  - intros Hid. rewrite (press_resolved _ _ _ _ Hresolved). cbn [final].
    unfold renderItem. cbn [row_unfollowButton row_text]. rewrite Hid.
    assert (Hflip : includes (optimisticUpdate (includes (following st) t)
                                t (following st)) t
                    = negb (includes (following st) t)).
    { destruct (includes (following st) t) eqn:Hinc; simpl.
      - apply includes_false. rewrite list_elem_of_filter. tauto.
      - apply includes_true, elem_of_app. right. by apply list_elem_of_singleton. }
    rewrite Hflip. by destruct (includes (following st) t).
Qed.

Lemma accepted_press_flips_one_row_witness :
  let st := mkFollowState [mkUserItem "ann" "Ann"; mkUserItem "bob" "Bob"]
              ["ann"] false in
  alwaysResolves "me" "bob" (negb (includes (following st) "bob")) = Resolved
  ∧ caught (press alwaysResolves (Some "me") (following st) "bob") = false
  ∧ ("ann" ≠ "bob" →
     renderItem (following (pressButton alwaysResolves (Some "me") st "bob"))
       (mkUserItem "ann" "Ann")
     = renderItem (following st) (mkUserItem "ann" "Ann")).
Proof.
  intros st. split; [reflexivity|].
  destruct (accepted_press_flips_one_row alwaysResolves "me" st "bob"
              (mkUserItem "ann" "Ann") eq_refl) as (Hcaught & Hother & _).
  split; [exact Hcaught|exact Hother].
Defined.

(** X5: a press without a user makes no backend call, runs the [catch]
    block, and leaves the screen drawn as it was. *)
Theorem signed_out_press_is_undone
    (toggle : string → string → bool → BackendOutcome)
    (st : FollowState) (t : string) :
  calls (press toggle None (following st) t) = []
  ∧ caught (press toggle None (following st) t) = true
  ∧ render (pressButton toggle None st t) = render st.
Proof.
  split_and!; [reflexivity|reflexivity|].
  unfold pressButton. rewrite (caught_final toggle None _ t eq_refl).
  apply render_ext. intros x. apply rollback_elem_of.
Qed.

(** X6: [fetchData] ends the loading state on every path, so the screen
    never stays on the loading text; without a user or with an empty
    uid, and when reading the profile throws, both lists stay as they
    were; when only the read of the other users throws, the following
    list has already been replaced and the users stay as they were. *)
Theorem fetchData_failure_paths
    (getUserProfile : string → Awaited (option UserProfile))
    (fetchAllUsersExceptCurrent : string → Awaited (list UserItem))
    (user : option string) (st : FollowState) :
  let after := fetchData getUserProfile fetchAllUsersExceptCurrent user st in
  loading after = false
  ∧ render after
    = UserList (renderItem (following after) <$> users after)
        (bool_decide (users after = []))
  ∧ (user = None ∨ user = Some "" →
     users after = users st ∧ following after = following st)
  ∧ (∀ uid, user = Some uid → getUserProfile uid = Thrown →
     users after = users st ∧ following after = following st)
  ∧ (∀ uid profile, user = Some uid → uid ≠ "" →
     getUserProfile uid = Fulfilled profile →
     fetchAllUsersExceptCurrent uid = Thrown →
     users after = users st
     ∧ following after = default [] (profile ≫= profile_following)).
Proof.
  intros after.
  assert (Hloading : loading after = false).
  { subst after. unfold fetchData.
    destruct user as [uid|]; [|reflexivity].
    case_bool_decide; [reflexivity|].
    destruct (getUserProfile uid); [|reflexivity].
    by destruct (fetchAllUsersExceptCurrent uid). }
  split_and!.
  - exact Hloading.
  - unfold render. by rewrite Hloading.
  - intros [->| ->]; by split.
  - intros uid -> Hthrown. subst after. unfold fetchData.
    case_bool_decide; [by split|]. by rewrite Hthrown.
  - intros uid profile -> Hne Hprofile Hthrown. subst after. unfold fetchData.
    rewrite bool_decide_eq_false_2 by done.
    by rewrite Hprofile, Hthrown.
Qed.

(** X7: when both reads succeed, the users are the fetched ones and the
    following list is the profile's; with no profile document, or one
    without a following field, the list is empty and every button reads
    'Follow'. *)
Theorem fetchData_success
    (getUserProfile : string → Awaited (option UserProfile))
    (fetchAllUsersExceptCurrent : string → Awaited (list UserItem))
    (uid : string) (profile : option UserProfile) (others : list UserItem)
    (st : FollowState) :
  uid ≠ "" →
  getUserProfile uid = Fulfilled profile →
  fetchAllUsersExceptCurrent uid = Fulfilled others →
  let after :=
    fetchData getUserProfile fetchAllUsersExceptCurrent (Some uid) st in
  users after = others
  ∧ (∀ listed, profile = Some (mkProfile (Some listed)) →
     following after = listed)
  ∧ (profile = None ∨ profile = Some (mkProfile None) →
     following after = []
     ∧ render after
       = UserList
           ((λ item, mkRow (item_id item) (item_name item) false FollowText
                       (item_id item)) <$> others)
           (bool_decide (others = []))).
Proof.
  intros Hne Hprofile Hothers after.
  assert (Hafter : after
                   = mkFollowState others
                       (default [] (profile ≫= profile_following)) false).
  { subst after. unfold fetchData.
    rewrite bool_decide_eq_false_2 by done.
    by rewrite Hprofile, Hothers. }
  rewrite Hafter. simpl. split_and!; [reflexivity| |].
  - by intros listed ->.
  - intros [->| ->]; by split.
Qed.

Lemma fetchData_success_witness :
  let others := [mkUserItem "ann" "Ann"; mkUserItem "bob" "Bob"] in
  let after :=
    fetchData (λ _, Fulfilled None) (usersAre others) (Some "me") initialState in
  "me" ≠ ""
  ∧ users after = others
  ∧ (∀ listed, @None UserProfile = Some (mkProfile (Some listed)) →
     following after = listed)
  ∧ (@None UserProfile = None ∨ @None UserProfile = Some (mkProfile None) →
     following after = []
     ∧ render after
       = UserList
           ((λ item, mkRow (item_id item) (item_name item) false FollowText
                       (item_id item)) <$> others)
           (bool_decide (others = []))).
Proof.
  intros others after.
  assert (Hne : "me" ≠ "") by discriminate.
  split; [exact Hne|].
  apply (fetchData_success (λ _, Fulfilled None) (usersAre others) "me" None
           others initialState Hne eq_refl eq_refl).
Defined.

End FollowScreenViewProofs.

(** ** Properties of the map screen's glows, markers and presses *)

Module HomeScreenActionsProofs.
Import FollowScreenView HomeScreen HomeScreenProofs HomeScreenActions.

(** *** More on getGlowStyle *)

(** [!t || t === null] is [!t]: null is falsy. *)
Lemma no_type_test (v : JsValue) :
  negb (truthy v) || is_null v = negb (truthy v).
Proof. by destruct v as [| |b|n|s|]; simpl; rewrite ?orb_false_r. Qed.

(** The branches, for a marker that is not the current user's. *)
Lemma getGlowStyle_other now userLocation currentUser selected glowOpacity :
  ¬ isSelf userLocation currentUser →
  getGlowStyle now userLocation currentUser selected glowOpacity
  = let op := glowOp glowOpacity in
    if truthy (sessionActive userLocation)
    then
      if is_string (sessionType userLocation) "collaborative" then greenGlow op
      else if is_string (sessionType userLocation) "quiet" then yellowGlow op
      else if is_string (sessionType userLocation) "individual" then redGlow op
      else greenGlow op
    else
      if truthy (sessionType userLocation) then orangeGlow op
      else
        match location userLocation with
        | None => grayGlow op
        | Some loc =>
            if (30 * 60 * 1000 <? now - timestamp loc)%Z then grayGlow op
            else orangeGlow op
        end.
Proof.
  intros Hother. unfold getGlowStyle.
  rewrite (not_self _ _ Hother), no_type_test.
  destruct (truthy (sessionActive userLocation)); simpl; [reflexivity|].
  destruct (truthy (sessionType userLocation)); simpl; [reflexivity|].
  by destruct (location userLocation).
Qed.

Lemma getGlowStyle_self now userLocation currentUser selected glowOpacity :
  isSelf userLocation currentUser →
  getGlowStyle now userLocation currentUser selected glowOpacity
  = blueGlow (glowOp glowOpacity).
Proof.
  intros Hself. unfold getGlowStyle. by rewrite bool_decide_eq_true_2.
Qed.

(** X8: a followed user with an active session never glows gray, orange
    or blue: the glow is green, yellow or red, and it is green for every
    session type other than 'quiet' and 'individual' (the fallback for
    an unknown or missing type). *)
Theorem active_session_glows_in_colour (now : Z) (userLocation : UserLocation)
    (currentUser : option AuthUser) (selected : option string)
    (glowOpacity : JsValue) :
  ¬ isSelf userLocation currentUser →
  truthy (sessionActive userLocation) = true →
  (getGlowStyle now userLocation currentUser selected glowOpacity
   = greenGlow (glowOp glowOpacity)
   ∨ getGlowStyle now userLocation currentUser selected glowOpacity
     = yellowGlow (glowOp glowOpacity)
   ∨ getGlowStyle now userLocation currentUser selected glowOpacity
     = redGlow (glowOp glowOpacity))
  ∧ (sessionType userLocation ≠ JsString "quiet" →
     sessionType userLocation ≠ JsString "individual" →
     getGlowStyle now userLocation currentUser selected glowOpacity
     = greenGlow (glowOp glowOpacity)).
Proof.
  intros Hother Hactive. rewrite (getGlowStyle_other _ _ _ _ _ Hother), Hactive.
  simpl. split.
  - destruct (is_string _ "collaborative"); [by left|].
    destruct (is_string _ "quiet"); [by right; left|].
    destruct (is_string _ "individual"); [by right; right|by left].
  - intros Hquiet Hindividual.
    destruct (is_string _ "collaborative"); [reflexivity|].
    destruct (sessionType userLocation) as [| |b|n|s|]; simpl; try reflexivity.
    rewrite !bool_decide_eq_false_2 by congruence. reflexivity.
Qed.

Lemma active_session_glows_in_colour_witness :
  let ann := sampleFriend (JsBoolean true) JsUndefined 1000 in
  ¬ isSelf ann (Some sampleUser)
  ∧ truthy (sessionActive ann) = true
  ∧ (sessionType ann ≠ JsString "quiet" →
     sessionType ann ≠ JsString "individual" →
     getGlowStyle 2000 ann (Some sampleUser) None JsObject
     = greenGlow (glowOp JsObject)).
Proof.
  intros ann.
  assert (Hother : ¬ isSelf ann (Some sampleUser)) by (unfold isSelf; discriminate).
  split_and!; [exact Hother|reflexivity|].
  apply (active_session_glows_in_colour 2000 ann (Some sampleUser) None JsObject
           Hother eq_refl).
Defined.

(** X9: a followed user without an active session glows gray or orange,
    never in a session colour; when a session type is still set, the
    glow is orange whatever the age of the location (the last fallback). *)
Theorem no_active_session_glows_gray_or_orange (now : Z)
    (userLocation : UserLocation) (currentUser : option AuthUser)
    (selected : option string) (glowOpacity : JsValue) :
  ¬ isSelf userLocation currentUser →
  truthy (sessionActive userLocation) = false →
  (getGlowStyle now userLocation currentUser selected glowOpacity
   = grayGlow (glowOp glowOpacity)
   ∨ getGlowStyle now userLocation currentUser selected glowOpacity
     = orangeGlow (glowOp glowOpacity))
  ∧ (truthy (sessionType userLocation) = true →
     getGlowStyle now userLocation currentUser selected glowOpacity
     = orangeGlow (glowOp glowOpacity)).
Proof.
  intros Hother Hactive. rewrite (getGlowStyle_other _ _ _ _ _ Hother), Hactive.
  simpl. split.
  - destruct (truthy (sessionType userLocation)); [by right|].
    destruct (location userLocation) as [loc|]; [|by left].
    destruct (_ <? _)%Z; [by left|by right].
  - by intros ->.
Qed.

Lemma no_active_session_glows_gray_or_orange_witness :
  let ann := sampleFriend (JsBoolean false) (JsString "quiet") 1000 in
  ¬ isSelf ann (Some sampleUser)
  ∧ truthy (sessionActive ann) = false
  ∧ (truthy (sessionType ann) = true →
     getGlowStyle 9000000 ann (Some sampleUser) None JsObject
     = orangeGlow (glowOp JsObject)).
Proof.
  intros ann.
  assert (Hother : ¬ isSelf ann (Some sampleUser)) by (unfold isSelf; discriminate).
  split_and!; [exact Hother|reflexivity|].
  apply (no_active_session_glows_gray_or_orange 9000000 ann (Some sampleUser)
           None JsObject Hother eq_refl).
Defined.

(** A gray glow, at whatever opacity, has only one cause. *)
Lemma getGlowStyle_gray_inv now userLocation currentUser selected glowOpacity op :
  getGlowStyle now userLocation currentUser selected glowOpacity = grayGlow op →
  ¬ isSelf userLocation currentUser
  ∧ truthy (sessionActive userLocation) = false
  ∧ truthy (sessionType userLocation) = false
  ∧ stale now userLocation.
Proof.
  destruct (decide (Some (userId userLocation) = optUid currentUser))
    as [Hself|Hother]; fold (isSelf userLocation currentUser) in *.
  { rewrite (getGlowStyle_self _ _ _ _ _ Hself). discriminate. }
  rewrite (getGlowStyle_other _ _ _ _ _ Hother). simpl. unfold stale.
  destruct (truthy (sessionActive userLocation)).
  { repeat match goal with
           | |- context [if ?c then _ else _] => destruct c
           end; discriminate. }
  destruct (truthy (sessionType userLocation)); [discriminate|].
  destruct (location userLocation) as [loc|]; [|done].
  destruct (Z.ltb_spec (30 * 60 * 1000) (now - timestamp loc));
    [intros _; split_and!; [done|done|done|lia]|discriminate].
Qed.

(** X10: the gray glow has exactly one cause: the marker is another
    user's, with no active session and no session type, whose location
    is missing or was sent more than 30 minutes ago. *)
Theorem gray_glow_iff (now : Z) (userLocation : UserLocation)
    (currentUser : option AuthUser) (selected : option string)
    (glowOpacity : JsValue) :
  getGlowStyle now userLocation currentUser selected glowOpacity
  = grayGlow (glowOp glowOpacity)
  ↔ ¬ isSelf userLocation currentUser
    ∧ truthy (sessionActive userLocation) = false
    ∧ truthy (sessionType userLocation) = false
    ∧ stale now userLocation.
Proof.
  split; [apply getGlowStyle_gray_inv|].
  intros (Hother & Hactive & Htype & Hstale).
  rewrite (getGlowStyle_other _ _ _ _ _ Hother), Hactive, Htype. simpl.
  unfold stale in Hstale.
  destruct (location userLocation) as [loc|]; [|reflexivity].
  destruct (Z.ltb_spec (30 * 60 * 1000) (now - timestamp loc)); [reflexivity|lia].
Qed.

(** *** The opacity, again *)

Lemma Qle_bool_false (x y : Q) : Qle_bool x y = false → (y < x)%Q.
Proof.
  intros H. apply Qnot_le_lt. intros Hle%Qle_bool_iff. congruence.
Qed.

(** X11: the clamp is idempotent and monotone: feeding the opacity that
    [getGlowStyle] has computed back as argument gives the same opacity,
    and a larger finite argument never gives a smaller opacity. *)
Theorem glowOp_idempotent_monotone (glowOpacity : JsValue) (q1 q2 : Q) :
  glowOp (JsNum (glowOp glowOpacity)) = glowOp glowOpacity
  ∧ ((q1 <= q2)%Q →
     js_le (glowOp (JsNum (Finite q1))) (glowOp (JsNum (Finite q2))) = true).
Proof.
  split.
  - destruct (glowOp_cases glowOpacity)
      as [->|[->|[->|(q & Hv & Hq & _)]]]; try reflexivity.
    rewrite Hq. by rewrite <- Hv.
  - intros Hle. simpl.
    destruct (Qle_bool (7 # 10) q1) eqn:H1; simpl;
      destruct (Qle_bool (7 # 10) q2) eqn:H2; simpl;
      try (destruct (Qle_bool (15 # 100) q1) eqn:H3);
      try (destruct (Qle_bool (15 # 100) q2) eqn:H4);
      simpl; apply Qle_bool_iff;
      repeat match goal with
             | H : Qle_bool _ _ = true |- _ => apply Qle_bool_iff in H
             | H : Qle_bool _ _ = false |- _ => apply Qle_bool_false in H
             end; lra.
Qed.

(** *** The markers of the map *)

Section RenderEach.
Context {A B : Type} (body : A → Rendered (option B)).

Lemma renderEach_throws (l : list A) :
  renderEach body l = RenderThrows ↔ ∃ x, x ∈ l ∧ body x = RenderThrows.
Proof.
  induction l as [|x l IH]; cbn [renderEach].
  - split; [discriminate|]. intros (x & Hx & _). by apply elem_of_nil in Hx.
  - destruct (body x) as [element|] eqn:Hbody.
    + destruct (renderEach body l) as [elements|].
      * split; [discriminate|]. intros (y & Hy & Hthrows).
        apply elem_of_cons in Hy as [->|Hy]; [congruence|].
        discriminate (proj2 IH (ex_intro _ y (conj Hy Hthrows))).
      * split; [|done]. intros _.
        destruct (proj1 IH eq_refl) as (y & Hy & Hthrows).
        exists y. split; [by apply list_elem_of_further|done].
    + split; [|done]. intros _. exists x. split; [apply list_elem_of_here|done].
Qed.

Lemma renderEach_elem_of (l : list A) (elements : list B) (y : B) :
  renderEach body l = Drawn elements → y ∈ elements →
  ∃ x, x ∈ l ∧ body x = Drawn (Some y).
Proof.
  revert elements. induction l as [|x l IH]; intros elements; cbn [renderEach].
  - intros [= <-] Hy. by apply elem_of_nil in Hy.
  - destruct (body x) as [element|] eqn:Hbody; [|discriminate].
    destruct (renderEach body l) as [rest|]; [|discriminate].
    intros [= <-] Hy.
    assert (Hrest : y ∈ rest → ∃ x0, x0 ∈ x :: l ∧ body x0 = Drawn (Some y)).
    { intros H. destruct (IH rest eq_refl H) as (x0 & Hx0 & Hdrawn).
      exists x0. split; [by apply list_elem_of_further|done]. }
    destruct element as [drawn|]; [|by apply Hrest].
    apply elem_of_cons in Hy as [->|Hy]; [|by apply Hrest].
    exists x. split; [apply list_elem_of_here|done].
Qed.

End RenderEach.

(** The one throw of the followed users' markers. *)
Lemma followedUserElement_throws (now : Z) (st : ScreenState)
    (entry : UserLocation) :
  followedUserElement now st entry = RenderThrows
  ↔ is_Some (location entry)
    ∧ shownPicture (pfp entry) = None ∧ name entry = None.
Proof.
  unfold followedUserElement.
  destruct (location entry) as [loc|].
  - destruct (shownPicture (pfp entry)) as [picture|].
    + split; [discriminate|]. by intros (_ & ? & _).
    + destruct (name entry) as [text|].
      * split; [discriminate|]. by intros (_ & _ & ?).
      * split; [|done]. intros _. split_and!; [by eexists|done|done].
  - split; [discriminate|]. intros ([? ?] & _). discriminate.
Qed.

Lemma followedUserElement_marker (now : Z) (st : ScreenState)
    (entry : UserLocation) (m : Marker) :
  followedUserElement now st entry = Drawn (Some m)
  ↔ followedUserMarker now st entry = Some m.
Proof.
  unfold followedUserMarker.
  destruct (followedUserElement now st entry) as [element|].
  - split; [by intros [= ->]|by intros ->].
  - split; discriminate.
Qed.

(** Markers are on the screen only when there is a region and no entry
    throws. *)
Lemma rendered_drawable (now : Z) (st : ScreenState) (m : Marker) :
  m ∈ renderedMarkers now st →
  is_Some (region st) ∧ namesDrawable (userLocations st).
Proof.
  unfold renderedMarkers, mapView, renderMap.
  destruct (region st) as [r|]; [|by intros ?%elem_of_nil].
  destruct (renderEach (followedUserElement now st) (userLocations st))
    as [followed|] eqn:Heach; [|by intros ?%elem_of_nil].
  intros _. split; [by eexists|].
  intros entry Hentry Hloc Hpicture.
  destruct (name entry) as [text|] eqn:Hname; [by eexists|].
  assert (Hthrows : renderEach (followedUserElement now st) (userLocations st)
                    = RenderThrows).
  { apply renderEach_throws. exists entry. split; [done|].
    by apply followedUserElement_throws. }
  congruence.
Qed.

Lemma renderedMarkers_elem_of (now : Z) (st : ScreenState) (m : Marker) :
  m ∈ renderedMarkers now st →
  m ∈ currentLocationMarker now st
  ∨ m ∈ teamMarkers
  ∨ (∃ userLocation,
       userLocation ∈ userLocations st
       ∧ followedUserMarker now st userLocation = Some m)
  ∨ ∃ space, space ∈ studySpaces st ∧ m = studySpaceMarker (zoomLevel st) space.
Proof.
  intros Hin. destruct (rendered_drawable _ _ _ Hin) as [Hregion Hnames].
  revert Hin. rewrite renderedMarkers_region by done.
  rewrite !elem_of_app, list_elem_of_omap, list_elem_of_fmap.
  intros [[H|[H|H]]|H]; auto.
  do 3 right. destruct H as (space & -> & Hin). eauto.
Qed.

Lemma teamMarkers_child (m : Marker) :
  m ∈ teamMarkers → ∃ asset, child m = PfpIcon asset.
Proof.
  unfold teamMarkers. rewrite !elem_of_cons, elem_of_nil.
  intros H. repeat destruct H as [->|H]; try (eexists; reflexivity). done.
Qed.

Lemma currentLocationMarker_inv (now : Z) (st : ScreenState) (m : Marker) :
  m ∈ currentLocationMarker now st →
  ∃ u loc,
    user st = Some u ∧ currentLocation st = Some loc
    ∧ m = mkMarker None (mkCoordinate (latitude loc) (longitude loc)) None None
            NoPress
            (ProfileBadge (blueGlow (Finite (5 # 10)))
               (bool_decide (selectedUserId st = Some (uid u)))
               (shownPicture (user_pfp u))).
Proof.
  unfold currentLocationMarker.
  destruct (currentLocation st) as [loc|]; [|by intros ?%elem_of_nil].
  destruct (user st) as [u|]; [|by intros ?%elem_of_nil].
  intros ->%list_elem_of_singleton. exists u, loc. split_and!; try reflexivity.
  by rewrite getGlowStyle_self.
Qed.

Lemma followedUserMarker_inv (now : Z) (st : ScreenState)
    (userLocation : UserLocation) (m : Marker) :
  followedUserMarker now st userLocation = Some m →
  ∃ loc,
    location userLocation = Some loc
    ∧ (is_Some (shownPicture (pfp userLocation)) ∨ is_Some (name userLocation))
    ∧ m = mkMarker (Some (userId userLocation))
            (mkCoordinate (latitude loc) (longitude loc)) None None
            (SelectUser (userId userLocation))
            (ProfileBadge
               (getGlowStyle now userLocation (user st) (selectedUserId st)
                  glowAnim0)
               (bool_decide (selectedUserId st = Some (userId userLocation)))
               (shownPicture (pfp userLocation))).
Proof.
  unfold followedUserMarker, followedUserElement.
  destruct (location userLocation) as [loc|]; [|discriminate].
  destruct (shownPicture (pfp userLocation)) as [picture|].
  - intros [= <-]. exists loc. split_and!; [done|left; by eexists|done].
  - destruct (name userLocation) as [text|]; [|discriminate].
    intros [= <-]. exists loc. split_and!; [done|right; by eexists|done].
Qed.

(** X12: the opacity argument of every call of the screen is the
    [Animated.Value] object, not a number, so every profile marker of
    the map, the user's own and the followed users', carries the
    opacity 0.5 as shadow opacity and as the alpha of both colours. *)
Theorem map_badges_glow_at_half (now : Z) (st : ScreenState) (m : Marker)
    (style : GlowStyle) (selected : bool) (picture : option string) :
  m ∈ renderedMarkers now st →
  child m = ProfileBadge style selected picture →
  over_shadowOpacity style.2 = Finite (5 # 10)
  ∧ alpha (over_borderColor style.2) = Finite (5 # 10)
  ∧ alpha (over_shadowColor style.2) = Finite (5 # 10).
Proof.
  intros Hin Hchild.
  assert (Hglow : ∃ n r g b, style = glow n r g b (Finite (5 # 10))).
  { destruct (renderedMarkers_elem_of _ _ _ Hin)
      as [H|[H|[(ul & _ & H)|(space & _ & ->)]]].
    - destruct (currentLocationMarker_inv _ _ _ H) as (u & loc & _ & _ & ->).
      injection Hchild as <- _ _. by exists glowSelf, 100%Z, 180%Z, 255%Z.
    - destruct (teamMarkers_child _ H) as [asset Hicon]. congruence.
    - destruct (followedUserMarker_inv _ _ _ _ H) as (loc & _ & _ & ->).
      injection Hchild as <- _ _. apply getGlowStyle_glow.
    - discriminate. }
  destruct Hglow as (n & r & g & b & ->). by split_and!.
Qed.

Lemma map_badges_glow_at_half_witness :
  let m :=
    mkMarker (Some "ann")
      (mkCoordinate (Finite (30286 # 1000)) (Finite (- (97737 # 1000))))
      None None (SelectUser "ann")
      (ProfileBadge (yellowGlow (Finite (5 # 10))) false None) in
  m ∈ renderedMarkers 2000 twoFriends
  ∧ child m = ProfileBadge (yellowGlow (Finite (5 # 10))) false None
  ∧ over_shadowOpacity (yellowGlow (Finite (5 # 10))).2 = Finite (5 # 10)
  ∧ alpha (over_borderColor (yellowGlow (Finite (5 # 10))).2) = Finite (5 # 10)
  ∧ alpha (over_shadowColor (yellowGlow (Finite (5 # 10))).2) = Finite (5 # 10).
Proof.
  intros m.
  assert (Hin : m ∈ renderedMarkers 2000 twoFriends).
  { do 7 apply list_elem_of_further. apply list_elem_of_here. }
  split_and!; [exact Hin|reflexivity| | |];
    apply (map_badges_glow_at_half 2000 twoFriends m
             (yellowGlow (Finite (5 # 10))) false None Hin eq_refl).
Defined.

(** X13: on the map a gray marker of a followed user always means an
    old ping: the entry has a location, sent more than 30 minutes
    before the current time, and neither an active session nor a
    session type. An entry without a location has no marker at all. *)
Theorem gray_marker_means_old_ping (now : Z) (st : ScreenState)
    (userLocation : UserLocation) (m : Marker)
    (op : JsNumber) (selected : bool) (picture : option string) :
  followedUserMarker now st userLocation = Some m →
  child m = ProfileBadge (grayGlow op) selected picture →
  (∃ loc, location userLocation = Some loc
          ∧ (30 * 60 * 1000 < now - timestamp loc)%Z)
  ∧ truthy (sessionActive userLocation) = false
  ∧ truthy (sessionType userLocation) = false.
Proof.
  intros Hmarker Hchild.
  destruct (followedUserMarker_inv _ _ _ _ Hmarker) as (loc & Hloc & _ & ->).
  injection Hchild as Hgray _ _.
  destruct (getGlowStyle_gray_inv _ _ _ _ _ _ Hgray)
    as (_ & Hactive & Htype & Hstale).
  split_and!; [|done|done].
  exists loc. split; [done|]. unfold stale in Hstale. rewrite Hloc in Hstale. lia.
Qed.

Lemma gray_marker_means_old_ping_witness :
  let ann := sampleFriend (JsBoolean false) JsNull 1000 in
  let m :=
    mkMarker (Some "ann")
      (mkCoordinate (Finite (30286 # 1000)) (Finite (- (97737 # 1000))))
      None None (SelectUser "ann")
      (ProfileBadge (grayGlow (Finite (5 # 10))) false None) in
  followedUserMarker 1801001 twoFriends ann = Some m
  ∧ child m = ProfileBadge (grayGlow (Finite (5 # 10))) false None
  ∧ (∃ loc, location ann = Some loc
            ∧ (30 * 60 * 1000 < 1801001 - timestamp loc)%Z)
  ∧ truthy (sessionActive ann) = false
  ∧ truthy (sessionType ann) = false.
Proof.
  intros ann m. split_and!; [reflexivity|reflexivity| | |];
    apply (gray_marker_means_old_ping 1801001 twoFriends ann m
             (Finite (5 # 10)) false None eq_refl eq_refl).
Defined.

(** X14: the user's own marker, drawn when both the current location
    and the user are known, is at the current location, glows blue, is
    marked as selected exactly when the selected user id is the user's
    own, and does nothing when pressed; it shows the user's picture
    only for a [pfp] that is present and not empty, and the initials
    otherwise. *)
Theorem own_marker_is_blue (now : Z) (st : ScreenState) (m : Marker) :
  m ∈ currentLocationMarker now st →
  ∃ u loc,
    user st = Some u ∧ currentLocation st = Some loc
    ∧ coordinate m = mkCoordinate (latitude loc) (longitude loc)
    ∧ child m
      = ProfileBadge (blueGlow (Finite (5 # 10)))
          (bool_decide (selectedUserId st = Some (uid u)))
          (shownPicture (user_pfp u))
    ∧ (user_pfp u = None ∨ user_pfp u = Some "" →
       child m
       = ProfileBadge (blueGlow (Finite (5 # 10)))
           (bool_decide (selectedUserId st = Some (uid u))) None)
    ∧ onPress m = NoPress.
Proof.
  intros Hin.
  destruct (currentLocationMarker_inv _ _ _ Hin) as (u & loc & Hu & Hloc & ->).
  exists u, loc. split_and!; try done.
  cbn [child]. by intros [->| ->].
Qed.

Lemma own_marker_is_blue_witness :
  let st :=
    mkScreen None
      (Some (mkLocation (Finite (30286 # 1000)) (Finite (- (97737 # 1000))) 1000))
      (Some (mkAuthUser "me" (Some "Me") (Some ""))) [] [] (Some "me") 15 in
  let m :=
    mkMarker None
      (mkCoordinate (Finite (30286 # 1000)) (Finite (- (97737 # 1000))))
      None None NoPress
      (ProfileBadge (blueGlow (Finite (5 # 10))) true None) in
  m ∈ currentLocationMarker 2000 st
  ∧ ∃ u loc,
      user st = Some u ∧ currentLocation st = Some loc
      ∧ coordinate m = mkCoordinate (latitude loc) (longitude loc)
      ∧ child m
        = ProfileBadge (blueGlow (Finite (5 # 10)))
            (bool_decide (selectedUserId st = Some (uid u)))
            (shownPicture (user_pfp u))
      ∧ (user_pfp u = None ∨ user_pfp u = Some "" →
         child m
         = ProfileBadge (blueGlow (Finite (5 # 10)))
             (bool_decide (selectedUserId st = Some (uid u))) None)
      ∧ onPress m = NoPress.
Proof.
  intros st m.
  assert (Hin : m ∈ currentLocationMarker 2000 st) by apply list_elem_of_here.
  split; [exact Hin|].
  apply (own_marker_is_blue 2000 st m Hin).
Defined.

(** X15: drawing the followed users' markers throws exactly when some
    entry with a location has neither a picture to show nor a name;
    when it does not throw, the markers are, in the order of the list,
    one per entry that has a location, keyed by the user id and
    selecting that user when pressed, and an entry without a location
    is skipped. *)
Theorem followed_markers_need_location (now : Z) (st : ScreenState)
    (entries : list UserLocation) :
  (renderEach (followedUserElement now st) entries = RenderThrows
   ↔ ∃ entry, entry ∈ entries ∧ is_Some (location entry)
              ∧ shownPicture (pfp entry) = None ∧ name entry = None)
  ∧ (∀ markers,
       renderEach (followedUserElement now st) entries = Drawn markers →
       (λ m, (key m, onPress m)) <$> markers
       = (λ entry, (Some (userId entry), SelectUser (userId entry)))
         <$> filter (λ entry, is_Some (location entry)) entries).
Proof.
  split.
  - rewrite renderEach_throws. split.
    + intros (entry & Hin & Hthrows). exists entry. split; [done|].
      by apply (followedUserElement_throws now st).
    + intros (entry & Hin & Hcase). exists entry. split; [done|].
      by apply followedUserElement_throws.
  - induction entries as [|entry entries IH]; intros markers;
      cbn [renderEach]; [by intros [= <-]|].
    unfold followedUserElement at 1.
    destruct (location entry) as [loc|] eqn:Hloc.
    + rewrite filter_cons_True by (rewrite Hloc; eauto).
      destruct (shownPicture (pfp entry)) as [picture|];
        [|destruct (name entry) as [text|]; [|discriminate]];
        (destruct (renderEach (followedUserElement now st) entries)
           as [rest|]; [|discriminate]);
        intros [= <-]; rewrite !fmap_cons; cbn [key onPress];
        f_equal; by apply IH.
    + rewrite filter_cons_False by (rewrite Hloc; by intros [? ?]).
      destruct (renderEach (followedUserElement now st) entries)
        as [rest|]; [|discriminate].
      intros [= <-]. by apply IH.
Qed.

(** *** bringSpaceToTop, again *)

Lemma hasId_true (spaceId : string) (space : StudySpace) :
  hasId spaceId space = true ↔ id space = spaceId.
Proof. unfold hasId. apply bool_decide_eq_true. Qed.

Lemma hasId_false (spaceId : string) (space : StudySpace) :
  hasId spaceId space = false ↔ id space ≠ spaceId.
Proof. unfold hasId. apply bool_decide_eq_false. Qed.

Lemma no_hasId (spaceId : string) (l : list StudySpace) :
  Forall (λ space, hasId spaceId space = false) l
  ↔ ∀ space, space ∈ l → id space ≠ spaceId.
Proof.
  rewrite Forall_forall. split; intros H space Hin; by apply hasId_false, H.
Qed.

Lemma bringSpaceToTop_Permutation (spaceId : string) (l : list StudySpace) :
  bringSpaceToTop spaceId l ≡ₚ l.
Proof.
  destruct (first_split (hasId spaceId) l)
    as [Hall|(before & x & after & -> & Hbefore & Hx)].
  - by rewrite bringSpaceToTop_absent.
  - rewrite bringSpaceToTop_found by done. apply Permutation_middle.
Qed.

(** X16: bringing the same space to the top twice is the same as once,
    and the list keeps its length. *)
Theorem bringSpaceToTop_idempotent (spaceId : string) (l : list StudySpace) :
  bringSpaceToTop spaceId (bringSpaceToTop spaceId l) = bringSpaceToTop spaceId l
  ∧ length (bringSpaceToTop spaceId l) = length l.
Proof.
  split; [|apply Permutation_length, bringSpaceToTop_Permutation].
  destruct (first_split (hasId spaceId) l)
    as [Hall|(before & x & after & -> & Hbefore & Hx)].
  - by rewrite !(bringSpaceToTop_absent _ _ Hall).
  - rewrite bringSpaceToTop_found by done.
    apply (bringSpaceToTop_found spaceId [] x (before ++ after));
      [apply Forall_nil_2|done].
Qed.



(** *** Presses on markers *)

(** X18: no press on a marker adds, removes or changes a study space or
    a followed user: the study spaces after a press are a permutation of
    those before, and the region, the current location, the user, the
    followed users and the zoom level are untouched. *)
Theorem press_keeps_spaces_and_users (m : Marker) (st : ScreenState) :
  studySpaces (pressMarker m st) ≡ₚ studySpaces st
  ∧ region (pressMarker m st) = region st
  ∧ currentLocation (pressMarker m st) = currentLocation st
  ∧ user (pressMarker m st) = user st
  ∧ userLocations (pressMarker m st) = userLocations st
  ∧ zoomLevel (pressMarker m st) = zoomLevel st.
Proof.
  unfold pressMarker. destruct (onPress m); simpl; split_and!; try done.
  apply bringSpaceToTop_Permutation.
Qed.

(** X19: pressing the marker of a study space whose document id is its
    [spaceId], and which is the first of the list with that id, moves
    that space to the front and keeps the others in their order, so the
    first card of the bottom sheet is that space's. *)
Theorem press_space_marker_brings_it_first (st : ScreenState) (zoom : Z)
    (before : list StudySpace) (space : StudySpace) (after : list StudySpace) :
  studySpaces st = before ++ space :: after →
  id space = spaceId space →
  (∀ other, other ∈ before → id other ≠ spaceId space) →
  studySpaces (pressMarker (studySpaceMarker zoom space) st)
  = space :: before ++ after
  ∧ head (fst <$> smallCards (pressMarker (studySpaceMarker zoom space) st))
    = Some (id space).
Proof.
  intros Hspaces Hid Hbefore.
  assert (Hafter : studySpaces (pressMarker (studySpaceMarker zoom space) st)
                   = space :: before ++ after).
  { unfold pressMarker. simpl. rewrite Hspaces.
    apply bringSpaceToTop_found; [by apply no_hasId|by apply hasId_true]. }
  split; [exact Hafter|].
  unfold smallCards. by rewrite Hafter.
Qed.

Lemma press_space_marker_brings_it_first_witness :
  let fac := sampleSpace "fac" "FAC" in
  studySpaces twoFriends = [sampleSpace "pcl" "PCL"] ++ fac :: []
  ∧ id fac = spaceId fac
  ∧ (∀ other, other ∈ [sampleSpace "pcl" "PCL"] → id other ≠ spaceId fac)
  ∧ studySpaces (pressMarker (studySpaceMarker 15 fac) twoFriends)
    = fac :: [sampleSpace "pcl" "PCL"] ++ []
  ∧ head (fst <$> smallCards (pressMarker (studySpaceMarker 15 fac) twoFriends))
    = Some (id fac).
Proof.
  intros fac.
  assert (Hbefore : ∀ other, other ∈ [sampleSpace "pcl" "PCL"] →
                             id other ≠ spaceId fac).
  { intros other ->%list_elem_of_singleton. discriminate. }
  split_and!; [reflexivity|reflexivity|exact Hbefore| |];
    apply (press_space_marker_brings_it_first twoFriends 15
             [sampleSpace "pcl" "PCL"] fac [] eq_refl eq_refl Hbefore).
Defined.

(** X20: the press looks the marker's [spaceId] up among the document
    ids: when no study space has it as [id], the press changes nothing. *)
Theorem press_space_marker_unknown_id (st : ScreenState) (zoom : Z)
    (space : StudySpace) :
  (∀ other, other ∈ studySpaces st → id other ≠ spaceId space) →
  pressMarker (studySpaceMarker zoom space) st = st.
Proof.
  intros Hnone. unfold pressMarker. simpl.
  rewrite bringSpaceToTop_absent by by apply no_hasId.
  by destruct st.
Qed.

Lemma press_space_marker_unknown_id_witness :
  let st :=
    mkScreen None None None []
      [mkStudySpace "doc1" "PCL" "2200 Speedway" "ann" noRatings "8am-10pm"
         (Finite 1, Finite 2) (Finite 0) "pcl" None] None 15 in
  let space :=
    mkStudySpace "doc1" "PCL" "2200 Speedway" "ann" noRatings "8am-10pm"
      (Finite 1, Finite 2) (Finite 0) "pcl" None in
  (∀ other, other ∈ studySpaces st → id other ≠ spaceId space)
  ∧ pressMarker (studySpaceMarker 15 space) st = st.
Proof.
  intros st space.
  assert (Hnone : ∀ other, other ∈ studySpaces st → id other ≠ spaceId space).
  { intros other ->%list_elem_of_singleton. discriminate. }
  split; [exact Hnone|].
  apply (press_space_marker_unknown_id st 15 space Hnone).
Defined.



(** *** The position *)

(** X22: while the screen has no region, a refused permission, a throw
    of the permission request or a throw of the position request leaves
    the state as it was, so the map is not drawn and no marker exists. *)
Theorem no_position_no_map (now : Z) (permission : Awaited string)
    (position : Awaited Position) (st : ScreenState) :
  region st = None →
  permission = Thrown
  ∨ (∃ status, permission = Fulfilled status ∧ status ≠ "granted")
  ∨ position = Thrown →
  getCurrentLocation permission position st = st
  ∧ mapView now (getCurrentLocation permission position st) = None
  ∧ renderedMarkers now (getCurrentLocation permission position st) = [].
Proof.
  intros Hregion Hcase.
  assert (Hsame : getCurrentLocation permission position st = st).
  { unfold getCurrentLocation.
    destruct Hcase as [->|[(status & -> & Hne)| ->]]; [reflexivity| |].
    - by rewrite bool_decide_eq_false_2.
    - destruct permission as [status|]; [|reflexivity].
      by destruct (negb _). }
  rewrite Hsame. unfold renderedMarkers, mapView, renderMap.
  rewrite Hregion. by split_and!.
Qed.

Lemma no_position_no_map_witness :
  region noRegionYet = None
  ∧ (@Fulfilled string "denied" = Thrown
     ∨ (∃ status, @Fulfilled string "denied" = Fulfilled status
                  ∧ status ≠ "granted")
     ∨ @Thrown Position = Thrown)
  ∧ getCurrentLocation (Fulfilled "denied") Thrown noRegionYet = noRegionYet
  ∧ mapView 0 (getCurrentLocation (Fulfilled "denied") Thrown noRegionYet) = None
  ∧ renderedMarkers 0 (getCurrentLocation (Fulfilled "denied") Thrown noRegionYet)
    = [].
Proof.
  assert (Hcase : @Fulfilled string "denied" = Thrown
                  ∨ (∃ status, @Fulfilled string "denied" = Fulfilled status
                               ∧ status ≠ "granted")
                  ∨ @Thrown Position = Thrown).
  { right. left. exists "denied". split; [reflexivity|discriminate]. }
  split_and!; [reflexivity|exact Hcase| | |];
    apply (no_position_no_map 0 (Fulfilled "denied") Thrown noRegionYet
             eq_refl Hcase).
Defined.

(** X23: once the permission is granted and the position is known, the
    region is centred on the position with the deltas 0.0922 and 0.0421.
    When the followed users' markers render (every followed user with a
    location has a picture or a name), the map is then drawn, it ends
    with one marker per study space, and for a signed-in user it starts
    with the user's own blue marker at the position, showing the user's
    picture only for a [pfp] that is present and not empty. When some
    followed user with a location has neither, the render throws and
    no map is drawn. *)
Theorem position_found_draws_map (now : Z) (found : Position)
    (st : ScreenState) :
  let after :=
    getCurrentLocation (Fulfilled "granted") (Fulfilled found) st in
  region after
  = Some (mkRegion (coords_latitude found) (coords_longitude found)
            (Finite (922 # 10000)) (Finite (421 # 10000)))
  ∧ (namesDrawable (userLocations st) →
     (∃ others,
        mapView now after
        = Some (others ++ (studySpaceMarker (zoomLevel st) <$> studySpaces st)))
     ∧ (∀ u, user st = Some u →
          head (renderedMarkers now after)
          = Some (mkMarker None
                    (mkCoordinate (coords_latitude found) (coords_longitude found))
                    None None NoPress
                    (ProfileBadge (blueGlow (Finite (5 # 10)))
                       (bool_decide (selectedUserId st = Some (uid u)))
                       (shownPicture (user_pfp u))))))
  ∧ ((∃ entry, entry ∈ userLocations st ∧ is_Some (location entry)
               ∧ shownPicture (pfp entry) = None ∧ name entry = None) →
     renderMap now after = RenderThrows
     ∧ renderedMarkers now after = []).
Proof.
  intros after.
  assert (Hafter : after
                   = mkScreen
                       (Some (mkRegion (coords_latitude found)
                                (coords_longitude found)
                                (Finite (922 # 10000)) (Finite (421 # 10000))))
                       (Some (mkLocation (coords_latitude found)
                                (coords_longitude found)
                                (position_timestamp found)))
                       (user st) (userLocations st) (studySpaces st)
                       (selectedUserId st) (zoomLevel st)).
  { subst after. unfold getCurrentLocation.
    by rewrite bool_decide_eq_true_2. }
  clearbody after. subst after.
  split_and!; [reflexivity| |].
  - intros Hnames. split.
    + rewrite mapView_region by (try done; by eexists). by eexists.
    + intros u Hu. rewrite renderedMarkers_region by (try done; by eexists).
      unfold currentLocationMarker.
      cbn [currentLocation user selectedUserId]. rewrite Hu.
      cbn [app head latitude longitude].
      rewrite getGlowStyle_self by reflexivity. reflexivity.
  - intros (entry & Hin & Hcase).
    assert (Hthrows : renderMap now
                        (mkScreen
                           (Some (mkRegion (coords_latitude found)
                                    (coords_longitude found)
                                    (Finite (922 # 10000)) (Finite (421 # 10000))))
                           (Some (mkLocation (coords_latitude found)
                                    (coords_longitude found)
                                    (position_timestamp found)))
                           (user st) (userLocations st) (studySpaces st)
                           (selectedUserId st) (zoomLevel st))
                      = RenderThrows).
    { unfold renderMap. cbn [region userLocations].
      assert (Heach : renderEach
                (followedUserElement now
                   (mkScreen
                      (Some (mkRegion (coords_latitude found)
                               (coords_longitude found)
                               (Finite (922 # 10000)) (Finite (421 # 10000))))
                      (Some (mkLocation (coords_latitude found)
                               (coords_longitude found)
                               (position_timestamp found)))
                      (user st) (userLocations st) (studySpaces st)
                      (selectedUserId st) (zoomLevel st)))
                (userLocations st) = RenderThrows).
      { apply renderEach_throws. exists entry. split; [done|].
        by apply followedUserElement_throws. }
      by rewrite Heach. }
    split; [exact Hthrows|].
    unfold renderedMarkers, mapView. by rewrite Hthrows.
Qed.

(** The map of a state in which a followed user has a location but
    neither picture nor name. *)
Example nameless_friend_throws :
  renderMap 2000
    (mkScreen (region twoFriends) None (Some sampleUser)
       [mkUserLocation "cat" None
          (Some (mkLocation (Finite 1) (Finite 2) 1000)) (Some "")
          JsUndefined JsUndefined]
       [sampleSpace "pcl" "PCL"] None 15)
  = RenderThrows.
Proof. reflexivity. Qed.

End HomeScreenActionsProofs.
